(** * excel-data-cleaner: the cleaning and validation core of [app.py]

    A shallow embedding of [normalize_columns], [clean_data],
    [validate_data], [display_safe], of the assembly of the validation
    report and of the script that drives them, with the part of pandas they
    rest on.

    Conventions of the model.
    - A character is a code point in U+0000..U+00FF ([ascii]); [str.strip],
      [str.lower] and [str.replace] are Python's on that range.
    - A cell is a string, a number, a date or missing.  The null sentinels of
      pandas ([None], [NaN], [pd.NA], [NaT]) are one value [CNA]: [isna] and
      [duplicated] do not tell them apart.  Numbers are integers; floating
      point values are left out.
    - A DataFrame is stored by columns, each with its dtype tag, next to the
      row index.  Text columns have dtype [object] (pandas 2).
    - A Python exception is a value [Raise e] of the type [result].
    - A run of the script is a function of the session flag and of what the
      widgets return; how [astype(str)] prints a number or a date is left
      open ([fmt]). *)

From Stdlib Require Import String Ascii List Bool Arith ZArith Lia.
From Stdlib Require Import DecimalString DecimalNat.
Import ListNotations.
Open Scope string_scope.
Open Scope nat_scope.
Open Scope list_scope.

(** ** Exceptions *)

Inductive exn : Type :=
| AttributeError
| ValueError.

Inductive result (A : Type) : Type :=
| Ok (a : A)
| Raise (e : exn).

Arguments Ok {A} a.
Arguments Raise {A} e.

Definition bind {A B : Type} (c : result A) (k : A -> result B) : result B :=
  match c with
  | Ok a => k a
  | Raise e => Raise e
  end.

Notation "x <- c ;; k" := (bind c (fun x => k))
  (at level 61, c at next level, right associativity).

(** A [for] loop whose body updates the state [S] or raises. *)
Fixpoint for_each {A S : Type} (body : S -> A -> result S) (xs : list A) (st : S)
  : result S :=
  match xs with
  | [] => Ok st
  | x :: xs' => st' <- body st x ;; for_each body xs' st'
  end.

(** ** Python strings *)

Module Py.

(** [str.isspace] on one character. *)
Definition isspace (c : ascii) : bool :=
  let n := nat_of_ascii c in
  ((9 <=? n) && (n <=? 13)) || ((28 <=? n) && (n <=? 32))
  || (n =? 133) || (n =? 160).

(** [str.lower] on one character: A-Z, and U+00C0..U+00DE but the
    multiplication sign. *)
Definition lower_char (c : ascii) : ascii :=
  let n := nat_of_ascii c in
  if ((65 <=? n) && (n <=? 90))
     || ((192 <=? n) && (n <=? 222) && negb (n =? 215))
  then ascii_of_nat (n + 32)
  else c.

Fixpoint map_chars (f : ascii -> ascii) (s : string) : string :=
  match s with
  | EmptyString => EmptyString
  | String c s' => String (f c) (map_chars f s')
  end.

Fixpoint lstrip (s : string) : string :=
  match s with
  | EmptyString => EmptyString
  | String c s' => if isspace c then lstrip s' else s
  end.

Fixpoint rstrip (s : string) : string :=
  match s with
  | EmptyString => EmptyString
  | String c s' =>
      match rstrip s' with
      | EmptyString => if isspace c then EmptyString else String c EmptyString
      | r => String c r
      end
  end.

(** [s.strip()] *)
Definition strip (s : string) : string := rstrip (lstrip s).

(** [s.lower()] *)
Definition lower (s : string) : string := map_chars lower_char s.

(** [s.replace(old, new)] for one-character [old] and [new]. *)
Definition replace (old new : ascii) (s : string) : string :=
  map_chars (fun c => if Ascii.eqb c old then new else c) s.

(** [str(n)] and the [{n}] of an f-string, for a count. *)
Definition str_of_nat (n : nat) : string :=
  NilEmpty.string_of_uint (Nat.to_uint n).

(** [str(z)] for an integer. *)
Definition str_of_int (z : Z) : string :=
  NilEmpty.string_of_int (Z.to_int z).

(** The character map of [replace(" ", "_")]. *)
Definition underscore_for_space (c : ascii) : ascii :=
  if Ascii.eqb c " " then "_"%char else c.

(** A string that [lstrip] (resp. [rstrip]) leaves alone. *)
Definition lstripped (s : string) : Prop := lstrip s = s.
Definition rstripped (s : string) : Prop := rstrip s = s.

End Py.

(** ** Cells, columns and frames *)

Inductive cell : Type :=
| CStr (s : string)
| CNum (n : Z)
| CDate (t : Z)
| CNA.

Inductive dtype : Type :=
| object
| int64
| float64
| datetime64.

Record Series : Type := mkSeries {
  s_dtype : dtype;
  values : list cell
}.

(** A column label as the decoder hands it over: text, or a number when the
    header cell held one. *)
Inductive label : Type :=
| LStr (s : string)
| LInt (z : Z).

Record DataFrame : Type := mkDataFrame {
  index : list Z;
  cols : list (label * Series)
}.

Definition cell_eqb (a b : cell) : bool :=
  match a, b with
  | CStr x, CStr y => String.eqb x y
  | CNum x, CNum y => Z.eqb x y
  | CDate x, CDate y => Z.eqb x y
  | CNA, CNA => true
  | _, _ => false
  end.

Fixpoint row_eqb (r1 r2 : list cell) : bool :=
  match r1, r2 with
  | [], [] => true
  | a :: r1', b :: r2' => cell_eqb a b && row_eqb r1' r2'
  | _, _ => false
  end.

Definition label_eqb (a b : label) : bool :=
  match a, b with
  | LStr x, LStr y => String.eqb x y
  | LInt x, LInt y => Z.eqb x y
  | _, _ => false
  end.

Definition is_object (d : dtype) : bool :=
  match d with
  | object => true
  | _ => false
  end.

(** [df.columns] *)
Definition columns (df : DataFrame) : list label := map fst (cols df).

(** [len(df)] *)
Definition nrows (df : DataFrame) : nat := length (index df).

(** [df.columns = new_labels] (as many labels as columns). *)
Definition set_columns (df : DataFrame) (ls : list label) : DataFrame :=
  mkDataFrame (index df) (combine ls (map snd (cols df))).

(** [col in df.columns] *)
Definition contains (ls : list label) (col : label) : bool :=
  existsb (label_eqb col) ls.

(** [df[col]]: the columns labelled [col]; one Series when the label is
    borne once, a sub-frame when it is borne by several. *)
Definition getitem (df : DataFrame) (col : label) : list (label * Series) :=
  filter (fun c => label_eqb (fst c) col) (cols df).

(** [df[col] = s] for a label already there. *)
Definition setitem (df : DataFrame) (col : label) (s : Series) : DataFrame :=
  mkDataFrame (index df)
    (map (fun c => if label_eqb (fst c) col then (fst c, s) else c) (cols df)).

(** Iterating [df.select_dtypes(include="object")]: the labels of the columns
    of dtype object, in order. *)
Definition select_dtypes_object (df : DataFrame) : list label :=
  map fst (filter (fun c => is_object (s_dtype (snd c))) (cols df)).

(** [df.empty] *)
Definition empty (df : DataFrame) : bool :=
  (length (cols df) =? 0) || (length (index df) =? 0).

(** ** The pandas operations the program calls *)

Definition isna (c : cell) : bool :=
  match c with
  | CNA => true
  | _ => false
  end.

Definition is_str (c : cell) : bool :=
  match c with
  | CStr _ => true
  | _ => false
  end.

Definition is_num (c : cell) : bool :=
  match c with
  | CNum _ => true
  | _ => false
  end.

Definition is_date (c : cell) : bool :=
  match c with
  | CDate _ => true
  | _ => false
  end.

(** [s.isna().sum()] *)
Definition isna_sum (s : Series) : nat := length (filter isna (values s)).

(** [lib.infer_dtype(values, skipna=True)] on the cells of the model: the
    answer follows the first value that is not missing. *)
Inductive inferred : Type :=
| inf_empty
| inf_string
| inf_integer
| inf_datetime
| inf_mixed_integer
| inf_mixed.

Definition infer_dtype (vs : list cell) : inferred :=
  let present := filter (fun c => negb (isna c)) vs in
  let mixed := if existsb is_num present then inf_mixed_integer else inf_mixed in
  match present with
  | [] => inf_empty
  | CStr _ :: _ => if forallb is_str present then inf_string else mixed
  | CNum _ :: _ => if forallb is_num present then inf_integer else inf_mixed_integer
  | CDate _ :: _ => if forallb is_date present then inf_datetime else mixed
  | CNA :: _ => inf_empty
  end.

(** [s.str]: the accessor refuses a column whose values are inferred to be
    all numbers or all dates
    ("Can only use .str accessor with string values"). *)
Definition str_accessor (s : Series) : result Series :=
  match infer_dtype (values s) with
  | inf_empty | inf_string | inf_mixed_integer | inf_mixed => Ok s
  | inf_integer | inf_datetime => Raise AttributeError
  end.

(** [s.str.strip()]: a string is stripped, every other value comes out
    missing.  The dtype tag is kept; where no string is left pandas may give
    the result, all missing, the dtype float64. *)
Definition str_strip_cell (c : cell) : cell :=
  match c with
  | CStr x => CStr (Py.strip x)
  | _ => CNA
  end.

Definition str_strip (s : Series) : Series :=
  mkSeries (s_dtype s) (map str_strip_cell (values s)).

(** [s.replace("", pd.NA)] *)
Definition replace_empty_cell (c : cell) : cell :=
  match c with
  | CStr EmptyString => CNA
  | _ => c
  end.

Definition replace_empty_NA (s : Series) : Series :=
  mkSeries (s_dtype s) (map replace_empty_cell (values s)).

(** The rows of a frame [n] rows high, read off its columns. *)
Definition hd_cell (vs : list cell) : cell := hd CNA vs.

Fixpoint rows_of (n : nat) (cvs : list (list cell)) : list (list cell) :=
  match n with
  | 0 => []
  | S n' => map hd_cell cvs :: rows_of n' (map (@tl cell) cvs)
  end.

Definition rows (df : DataFrame) : list (list cell) :=
  rows_of (length (index df)) (map (fun c => values (snd c)) (cols df)).

(** The hash-table pass of [duplicated(keep="first")]: a row already in the
    table is a duplicate, any other row is put in the table. *)
Fixpoint duplicated_from (seen rs : list (list cell)) : list bool :=
  match rs with
  | [] => []
  | r :: rs' =>
      if existsb (row_eqb r) seen
      then true :: duplicated_from seen rs'
      else false :: duplicated_from (r :: seen) rs'
  end.

(** [df.duplicated()]; an empty frame gives an empty Series. *)
Definition duplicated (df : DataFrame) : list bool :=
  if empty df then [] else duplicated_from [] (rows df).

(** [b.sum()] for a boolean Series. *)
Definition sum_bool (bs : list bool) : nat := length (filter (fun b => b) bs).

(** [xs[mask]]: the positions where the mask is true. *)
Fixpoint filter_mask {A : Type} (mask : list bool) (xs : list A) : list A :=
  match mask, xs with
  | b :: mask', x :: xs' =>
      if b then x :: filter_mask mask' xs' else filter_mask mask' xs'
  | _, _ => []
  end.

(** [df[mask]] *)
Definition boolean_mask (df : DataFrame) (mask : list bool) : DataFrame :=
  mkDataFrame (filter_mask mask (index df))
    (map (fun c => (fst c, mkSeries (s_dtype (snd c))
                             (filter_mask mask (values (snd c)))))
         (cols df)).

(** [df.drop_duplicates()]: [df[-df.duplicated()]], and a copy of an empty
    frame. *)
Definition drop_duplicates (df : DataFrame) : DataFrame :=
  if empty df then df else boolean_mask df (map negb (duplicated df)).

(** ** The program *)

(** [astype(str)] on one label. *)
Definition astype_str (l : label) : string :=
  match l with
  | LStr s => s
  | LInt z => Py.str_of_int z
  end.

(** What the chain of [normalize_columns] does to one name. *)
Definition normalize_name (s : string) : string :=
  Py.replace " " "_" (Py.lower (Py.strip s)).

Definition normalize_columns (df : DataFrame) : DataFrame :=
  set_columns df
    (map LStr
       (map (Py.replace " " "_")
          (map Py.lower
             (map Py.strip
                (map astype_str (columns df)))))).

(** The body of the loop of [clean_data]:
    [df[col] = df[col].str.strip().replace("", pd.NA)].  A label borne by
    several columns makes [df[col]] a frame, which has no [.str]. *)
Definition clean_column (df : DataFrame) (col : label) : result DataFrame :=
  match getitem df col with
  | [(_, s)] =>
      acc <- str_accessor s ;;
      Ok (setitem df col (replace_empty_NA (str_strip acc)))
  | _ => Raise AttributeError
  end.

(** The loop of [clean_data]. *)
Definition strip_strings (df : DataFrame) : result DataFrame :=
  for_each clean_column (select_dtypes_object df) df.

Definition clean_data (df : DataFrame) : result DataFrame :=
  let df := normalize_columns df in
  df <- strip_strings df ;;
  Ok (drop_duplicates df).

Definition dup_issue (dup_count : nat) : string :=
  (Py.str_of_nat dup_count ++ " duplicate rows found")%string.

Definition missing_column_issue (col : string) : string :=
  ("Missing required column: " ++ col)%string.

Definition missing_values_issue (col : string) (missing_count : nat) : string :=
  ("Column '" ++ col ++ "' has " ++ Py.str_of_nat missing_count
   ++ " missing values")%string.

(** The body of the loop of [validate_data].  With a label borne by several
    columns [missing_count > 0] is a Series, and [if] on it raises. *)
Definition validate_column (df : DataFrame) (issues : list string) (col : string)
  : result (list string) :=
  if negb (contains (columns df) (LStr col))
  then Ok (issues ++ [missing_column_issue col])
  else
    match getitem df (LStr col) with
    | [(_, s)] =>
        let missing_count := isna_sum s in
        if 0 <? missing_count
        then Ok (issues ++ [missing_values_issue col missing_count])
        else Ok issues
    | _ => Raise ValueError
    end.

Definition validate_data (df : DataFrame) (required_columns : list string)
  : result (list string) :=
  let issues := [] in
  let dup_count := sum_bool (duplicated df) in
  let issues := if 0 <? dup_count then issues ++ [dup_issue dup_count] else issues in
  for_each (validate_column df) required_columns issues.

(** [pd.DataFrame({name: strings})] *)
Definition frame_of_strings (name : string) (xs : list string) : DataFrame :=
  mkDataFrame (map Z.of_nat (seq 0 (length xs)))
    [(LStr name, mkSeries object (map CStr xs))].

(** The [report] frame written to the sheet "Validation_Report". *)
Definition report (issues : list string) : DataFrame :=
  match issues with
  | [] => frame_of_strings "Validation_Issues" ["No issues found"]
  | _ :: _ => frame_of_strings "Validation_Issues" issues
  end.

(** ** Notions the properties are stated with *)

(** One label through the whole chain. *)
Definition normalize_label (l : label) : label :=
  LStr (normalize_name (astype_str l)).

Definition clean_cell (c : cell) : cell := replace_empty_cell (str_strip_cell c).

Definition clean_series (s : Series) : Series := replace_empty_NA (str_strip s).

(** What the loop does to one column when it does not raise. *)
Definition clean_col (c : label * Series) : label * Series :=
  if is_object (s_dtype (snd c)) then (fst c, clean_series (snd c)) else c.

Definition clean_cells (df : DataFrame) : DataFrame :=
  mkDataFrame (index df) (map clean_col (cols df)).

Definition str_valid (s : Series) : bool :=
  match str_accessor s with
  | Ok _ => true
  | Raise _ => false
  end.

Definition count_label (l : label) (ls : list label) : nat :=
  length (filter (fun l' => label_eqb l' l) ls).

(** The loop passes a column when it is not of dtype object, or when its
    label is borne by no other column and [.str] accepts its values. *)
Definition column_ok (ls : list label) (c : label * Series) : bool :=
  negb (is_object (s_dtype (snd c)))
  || ((count_label (fst c) ls =? 1) && str_valid (snd c)).

Definition cleanable (df : DataFrame) : bool :=
  forallb (column_ok (columns df)) (cols df).

(** Every column of dtype object holds cleaned cells only. *)
Definition cleaned (df : DataFrame) : Prop :=
  Forall (fun c => is_object (s_dtype (snd c)) = true ->
                   Forall (fun v => clean_cell v = v) (values (snd c)))
         (cols df).

(** Every label is the result of the Normalizer. *)
Definition normalized (df : DataFrame) : Prop :=
  Forall (fun l => normalize_label l = l) (columns df).

(** A label of an object column is borne by that column alone. *)
Definition own_label (ls : list label) (c : label * Series) : bool :=
  negb (is_object (s_dtype (snd c))) || (count_label (fst c) ls =? 1).

Definition object_labels_unique (df : DataFrame) : bool :=
  forallb (own_label (columns df)) (cols df).

(** [h] changes the values of a column, not its label or dtype. *)
Definition keeps_header (h : label * Series -> label * Series) : Prop :=
  forall c, fst (h c) = fst c /\ s_dtype (snd (h c)) = s_dtype (snd c).

(** What the loop does to the cells of a column, and to a row. *)
Definition clean_col_cell (c : label * Series) : cell -> cell :=
  if is_object (s_dtype (snd c)) then clean_cell else fun v => v.


(** ** The Validator as the specification describes it *)

Definition cell_eq_dec (a b : cell) : {a = b} + {a <> b}.
Proof.
  decide equality; try apply Z.eq_dec; apply string_dec.
Defined.

(** The number of cells of a column that hold the missing marker. *)
Definition missing_cells (s : Series) : nat := count_occ cell_eq_dec (values s) CNA.

(** The issue of one required name, as the specification words it: the name
    is looked up among the columns; an absent name is reported, a present one
    is reported when its column has missing cells. *)
Definition required_issue (df : DataFrame) (name : string) : list string :=
  match find (fun c => label_eqb (fst c) (LStr name)) (cols df) with
  | None => [missing_column_issue name]
  | Some (_, s) =>
      if 0 <? missing_cells s
      then [missing_values_issue name (missing_cells s)]
      else []
  end.

(** The issue on duplicate rows, first in the sequence when there is one. *)
Definition duplicate_issue (df : DataFrame) : list string :=
  let count := sum_bool (duplicated df) in
  if 0 <? count then [dup_issue count] else [].

Definition validate_spec (df : DataFrame) (required_columns : list string)
  : list string :=
  duplicate_issue df ++ flat_map (required_issue df) required_columns.

(** ** The preview and the script *)

(** [df.head()]: the first five rows. *)
Definition head (df : DataFrame) : DataFrame :=
  mkDataFrame (firstn 5 (index df))
    (map (fun c => (fst c, mkSeries (s_dtype (snd c))
                             (firstn 5 (values (snd c)))))
         (cols df)).

(** The default of the multiselect:
    [[c for c in ["date", "amount"] if c in raw_df.columns]]. *)
Definition default_required (df : DataFrame) : list string :=
  filter (fun c => contains (columns df) (LStr c)) ["date"; "amount"].

(** What can end a run of the script: the name [raw_df] used while it is not
    bound, or an exception of the core. *)
Inductive script_exn : Type :=
| NameError
| CoreError (e : exn).

(** What the lower part of the page shows after a run. *)
Inductive outcome : Type :=
| NotRun
| Failed (e : script_exn)
| Completed (issues : list string) (cleaned_preview cleaned_df report_df : DataFrame).

(** The widgets as one run reads them: the frame [pd.read_excel] gives for
    the uploaded file if there is one, whether the button was clicked, and
    the names picked in the multiselect if the user touched it. *)
Record Widgets : Type := mkWidgets {
  uploaded_file : option DataFrame;
  button : bool;
  selection : option (list string)
}.

(** One run of the script: the key "proceed" of the session after it, the
    preview of the raw data, and the outcome. *)
Record Run : Type := mkRun {
  session : option bool;
  raw_preview : option DataFrame;
  shown : outcome
}.

Section Display.

(** How [astype(str)] prints a value that is not a string; the format is
    chosen by pandas from the column the value is in. *)
Variable fmt : Series -> cell -> string.

(** [s.fillna(v)] with a string: a column that had a missing value becomes a
    column of dtype object. *)
Definition fillna (v : string) (s : Series) : Series :=
  mkSeries (if existsb isna (values s) then object else s_dtype s)
    (map (fun c => if isna c then CStr v else c) (values s)).

(** [s.astype(str)] *)
Definition series_astype_str (s : Series) : Series :=
  mkSeries object
    (map (fun c => match c with
                   | CStr _ => c
                   | _ => CStr (fmt s c)
                   end)
         (values s)).

(** [df.fillna("MISSING").astype(str)] *)
Definition display_safe (df : DataFrame) : DataFrame :=
  mkDataFrame (index df)
    (map (fun c => (fst c, series_astype_str (fillna "MISSING" (snd c))))
         (cols df)).

(** The part of the script under [if st.session_state.proceed:], for a bound
    [raw_df]. *)
Definition pipeline (raw_df : DataFrame) (selection : option (list string))
  : outcome :=
  let raw_df := normalize_columns raw_df in
  let required_columns :=
    match selection with
    | Some picked => picked
    | None => default_required raw_df
    end in
  match validate_data raw_df required_columns with
  | Raise e => Failed (CoreError e)
  | Ok issues =>
      match clean_data raw_df with
      | Raise e => Failed (CoreError e)
      | Ok cleaned_df =>
          Completed issues (display_safe (head cleaned_df)) cleaned_df
            (report issues)
      end
  end.

(** One run of the script from the session [ss] ([None] before the key
    "proceed" is set). *)
Definition script (ss : option bool) (w : Widgets) : Run :=
  let proceed := match ss with
                 | None => false
                 | Some b => b
                 end in
  let proceed := match uploaded_file w with
                 | Some _ => if button w then true else proceed
                 | None => proceed
                 end in
  mkRun (Some proceed)
    (option_map (fun raw_df => display_safe (head raw_df)) (uploaded_file w))
    (if proceed
     then match uploaded_file w with
          | Some raw_df => pipeline raw_df (selection w)
          | None => Failed NameError
          end
     else NotRun).

(** The session after a sequence of runs. *)
Fixpoint session_after (ss : option bool) (ws : list Widgets) : option bool :=
  match ws with
  | [] => ss
  | w :: ws' => session_after (session (script ss w)) ws'
  end.

End Display.

(** A run in which the user confirms with a file uploaded. *)
Definition confirms (w : Widgets) : bool :=
  match uploaded_file w with
  | Some _ => button w
  | None => false
  end.

(** A frame as pandas builds it: every column is as long as the index. *)
Definition well_formed (df : DataFrame) : Prop :=
  Forall (fun c => length (values (snd c)) = nrows df) (cols df).

(** A cell that the cleaning of a text column turns into the missing marker:
    a blank string, or a value that is not a string. *)
Definition lost_in_cleaning (c : cell) : bool :=
  match c with
  | CStr x => String.eqb (Py.strip x) ""
  | CNA => false
  | _ => true
  end.

(** The three forms of an issue. *)
Inductive issue_form : string -> Prop :=
| form_duplicates n : issue_form (dup_issue n)
| form_missing_column name : issue_form (missing_column_issue name)
| form_missing_values name n : issue_form (missing_values_issue name n).

(** The characters of a string. *)
Fixpoint chars (s : string) : list ascii :=
  match s with
  | EmptyString => []
  | String c s' => c :: chars s'
  end.

(** ** Concrete tables *)

Definition text (xs : list cell) : Series := mkSeries object xs.

Definition range_index (n : nat) : list Z := map Z.of_nat (seq 0 n).

(** Scenario A of the specification. *)
Definition scenario_a : DataFrame :=
  mkDataFrame (range_index 3)
    [ (LStr "Date ", text [CStr "d1"; CStr "d2"; CStr "d1"]);
      (LStr "Amount", mkSeries int64 [CNum 10; CNum 20; CNum 10]) ].

(** A text column that also holds a number, as a sheet column with "abc" and
    5 in it is decoded. *)
Definition mixed_column : DataFrame :=
  mkDataFrame (range_index 2) [(LStr "x", text [CStr "abc"; CNum 5])].

(** Two distinct names with one normal form. *)
Definition colliding_names : DataFrame :=
  mkDataFrame (range_index 1)
    [ (LStr "A", text [CStr "x"]); (LStr "a", text [CStr "y"]) ].

(** Two rows that differ by a trailing blank only. *)
Definition trailing_blank : DataFrame :=
  mkDataFrame (range_index 2) [(LStr "x", text [CStr "a"; CStr "a "])].

(** Scenario C of the specification, with three empty strings in ten rows. *)
Definition amounts : Series :=
  text [CStr "1"; CStr ""; CStr "2"; CStr "3"; CStr ""; CStr "4";
        CStr "5"; CStr ""; CStr "6"; CStr "7"].

Definition scenario_c : DataFrame :=
  mkDataFrame (range_index 10)
    [ (LStr "id", mkSeries int64 (map CNum (range_index 10)));
      (LStr "amount", amounts) ].

(** A way of printing for the runs below: integers in decimal. *)
Definition sample_fmt (s : Series) (c : cell) : string :=
  match c with
  | CNum z => Py.str_of_int z
  | CDate t => Py.str_of_int t
  | _ => ""
  end.

(** Two runs of the script: a click with a file uploaded, and a run without
    a file. *)
Definition confirming_run : Widgets := mkWidgets (Some scenario_a) true None.

Definition run_without_file : Widgets := mkWidgets None false None.

(** ** Runs on concrete tables *)

Example scenario_a_columns :
  columns (normalize_columns scenario_a) = [LStr "date"; LStr "amount"].
Proof. reflexivity. Qed.

Example scenario_a_issues :
  validate_data (normalize_columns scenario_a) ["date"; "amount"]
  = Ok ["1 duplicate rows found"].
Proof. reflexivity. Qed.

Example scenario_a_cleaned :
  clean_data scenario_a
  = Ok (mkDataFrame [0%Z; 1%Z]
          [ (LStr "date", text [CStr "d1"; CStr "d2"]);
            (LStr "amount", mkSeries int64 [CNum 10; CNum 20]) ]).
Proof. reflexivity. Qed.

Example normalize_name_example : normalize_name " Order Date " = "order_date".
Proof. reflexivity. Qed.

Example astype_str_number : astype_str (LInt 2024) = "2024".
Proof. reflexivity. Qed.

Example scenario_b :
  validate_data (normalize_columns scenario_a) ["category"]
  = Ok ["1 duplicate rows found"; "Missing required column: category"].
Proof. reflexivity. Qed.

(** ** Python strings: stripping and character maps *)

Module PyFacts.
Import Py.

Ltac each_char c :=
  destruct c as [[] [] [] [] [] [] [] []]; vm_compute; try reflexivity; try discriminate.

Lemma isspace_lower_char c : isspace (lower_char c) = isspace c.
Proof. each_char c. Qed.

Lemma replace_is_map s : replace " " "_" s = map_chars underscore_for_space s.
Proof. reflexivity. Qed.

Lemma underscore_not_space c :
  isspace c = false -> isspace (underscore_for_space c) = false.
Proof. each_char c. Qed.

Lemma underscore_idem c :
  underscore_for_space (underscore_for_space c) = underscore_for_space c.
Proof. each_char c. Qed.

Lemma lower_underscore c :
  lower_char (underscore_for_space (lower_char c))
  = underscore_for_space (lower_char c).
Proof. each_char c. Qed.

Lemma map_chars_map_chars f g s :
  map_chars f (map_chars g s) = map_chars (fun c => f (g c)) s.
Proof. induction s as [|c s IH]; simpl; [reflexivity | now rewrite IH]. Qed.

Lemma map_chars_ext f g s :
  (forall c, f c = g c) -> map_chars f s = map_chars g s.
Proof.
  intros E. induction s as [|c s IH]; simpl; [reflexivity | now rewrite E, IH].
Qed.

Lemma map_chars_empty f s : map_chars f s = EmptyString -> s = EmptyString.
Proof. destruct s; simpl; [reflexivity | discriminate]. Qed.

Lemma lstripped_head c s : lstripped (String c s) -> isspace c = false.
Proof.
  unfold lstripped. simpl. destruct (isspace c) eqn:E; [|reflexivity].
  intros H. exfalso.
  assert (L : forall t, String.length (lstrip t) <= String.length t).
  { induction t as [|d t IH]; simpl; [lia|]. destruct (isspace d); simpl; lia. }
  specialize (L s). rewrite H in L. simpl in L. lia.
Qed.

Lemma lstrip_lstripped s : lstripped (lstrip s).
Proof.
  unfold lstripped. induction s as [|c s IH]; simpl; [reflexivity|].
  destruct (isspace c) eqn:E; [exact IH|]. simpl. now rewrite E.
Qed.

Lemma rstrip_cons c s :
  rstrip (String c s)
  = if isspace c && String.eqb (rstrip s) EmptyString
    then EmptyString else String c (rstrip s).
Proof.
  simpl. destruct (rstrip s); simpl.
  - destruct (isspace c); reflexivity.
  - now rewrite andb_false_r.
Qed.

Lemma rstrip_rstripped s : rstripped (rstrip s).
Proof.
  unfold rstripped. induction s as [|c s IH]; [reflexivity|].
  rewrite rstrip_cons.
  destruct (isspace c && String.eqb (rstrip s) EmptyString) eqn:E; [reflexivity|].
  rewrite rstrip_cons, IH, E. reflexivity.
Qed.

Lemma rstrip_keeps_lstripped s : lstripped s -> lstripped (rstrip s).
Proof.
  intros H. destruct s as [|c s]; [reflexivity|].
  pose proof (lstripped_head _ _ H) as Hc.
  rewrite rstrip_cons, Hc. simpl. unfold lstripped. simpl. now rewrite Hc.
Qed.

Lemma strip_stripped s : lstripped (strip s) /\ rstripped (strip s).
Proof.
  split.
  - apply rstrip_keeps_lstripped, lstrip_lstripped.
  - apply rstrip_rstripped.
Qed.

Lemma strip_fixed s : lstripped s -> rstripped s -> strip s = s.
Proof. unfold strip, lstripped, rstripped. intros -> ->. reflexivity. Qed.

Section CharMap.
Variable f : ascii -> ascii.
Hypothesis f_keeps_nonspace : forall c, isspace c = false -> isspace (f c) = false.

Lemma map_chars_lstripped s : lstripped s -> lstripped (map_chars f s).
Proof.
  intros H. destruct s as [|c s]; [reflexivity|].
  pose proof (lstripped_head _ _ H) as Hc.
  unfold lstripped. simpl. now rewrite (f_keeps_nonspace _ Hc).
Qed.

Lemma map_chars_rstripped s : rstripped s -> rstripped (map_chars f s).
Proof.
  unfold rstripped. induction s as [|c s IH]; [reflexivity|].
  rewrite rstrip_cons. intros H.
  destruct (isspace c && String.eqb (rstrip s) EmptyString) eqn:E;
    [discriminate|].
  injection H as Hs. specialize (IH Hs).
  change (map_chars f (String c s)) with (String (f c) (map_chars f s)).
  rewrite rstrip_cons, IH.
  destruct (isspace (f c) && String.eqb (map_chars f s) EmptyString) eqn:E';
    [|reflexivity].
  exfalso. apply andb_prop in E' as [E1 E2].
  apply String.eqb_eq, map_chars_empty in E2. subst s.
  rewrite Hs in E. simpl in E. rewrite andb_true_r in E.
  rewrite (f_keeps_nonspace _ E) in E1. discriminate.
Qed.
End CharMap.

Lemma lower_keeps_nonspace c : isspace c = false -> isspace (lower_char c) = false.
Proof. now rewrite isspace_lower_char. Qed.

End PyFacts.

(** ** The Normalizer *)

Lemma normalize_name_stripped s :
  Py.strip (normalize_name s) = normalize_name s.
Proof.
  unfold normalize_name. destruct (PyFacts.strip_stripped s) as [L R].
  rewrite PyFacts.replace_is_map. unfold Py.lower.
  apply PyFacts.strip_fixed.
  - apply PyFacts.map_chars_lstripped; [exact PyFacts.underscore_not_space|].
    apply PyFacts.map_chars_lstripped; [exact PyFacts.lower_keeps_nonspace|exact L].
  - apply PyFacts.map_chars_rstripped; [exact PyFacts.underscore_not_space|].
    apply PyFacts.map_chars_rstripped; [exact PyFacts.lower_keeps_nonspace|exact R].
Qed.

Lemma normalize_name_idem s :
  normalize_name (normalize_name s) = normalize_name s.
Proof.
  unfold normalize_name at 1. rewrite normalize_name_stripped.
  unfold normalize_name. rewrite !PyFacts.replace_is_map. unfold Py.lower.
  rewrite !PyFacts.map_chars_map_chars.
  apply PyFacts.map_chars_ext. intros c.
  now rewrite PyFacts.lower_underscore, PyFacts.underscore_idem.
Qed.

Lemma combine_map_fst_snd (A B C : Type) (f : A -> C) (l : list (A * B)) :
  combine (map f (map fst l)) (map snd l) = map (fun c => (f (fst c), snd c)) l.
Proof. induction l as [|[a b] l IH]; simpl; [reflexivity | now rewrite IH]. Qed.

Lemma normalize_columns_cols df :
  cols (normalize_columns df)
  = map (fun c => (normalize_label (fst c), snd c)) (cols df).
Proof.
  unfold normalize_columns, set_columns, columns. simpl.
  rewrite <- (combine_map_fst_snd _ _ _ normalize_label). f_equal.
  rewrite !map_map. reflexivity.
Qed.

Lemma normalize_columns_columns df :
  columns (normalize_columns df) = map normalize_label (columns df).
Proof.
  unfold columns at 1. rewrite normalize_columns_cols.
  unfold columns. rewrite !map_map. reflexivity.
Qed.

Lemma normalize_label_idem l :
  normalize_label (normalize_label l) = normalize_label l.
Proof. unfold normalize_label. simpl. now rewrite normalize_name_idem. Qed.

Lemma DataFrame_eq df1 df2 :
  index df1 = index df2 -> cols df1 = cols df2 -> df1 = df2.
Proof. destruct df1, df2. simpl. now intros -> ->. Qed.

Lemma normalize_columns_idem df :
  normalize_columns (normalize_columns df) = normalize_columns df.
Proof.
  apply DataFrame_eq; [reflexivity|].
  rewrite normalize_columns_cols, normalize_columns_cols, map_map. simpl.
  apply map_ext. intros c. now rewrite normalize_label_idem.
Qed.

(** ** The loop of the Cleaner, column by column *)

Lemma label_eqb_refl l : label_eqb l l = true.
Proof. destruct l; simpl; [apply String.eqb_refl | apply Z.eqb_refl]. Qed.

Lemma label_eqb_eq a b : label_eqb a b = true <-> a = b.
Proof.
  destruct a, b; simpl; split; intros H; try discriminate.
  - apply String.eqb_eq in H. now subst.
  - injection H as ->. apply String.eqb_refl.
  - apply Z.eqb_eq in H. now subst.
  - injection H as ->. apply Z.eqb_refl.
Qed.

Lemma str_accessor_valid s :
  str_accessor s = if str_valid s then Ok s else Raise AttributeError.
Proof.
  unfold str_valid, str_accessor. destruct (infer_dtype (values s)); reflexivity.
Qed.

(** [.str] refuses exactly the columns whose values, missing ones apart, are
    some and are all numbers or all dates. *)
Lemma str_valid_refused s :
  let present := filter (fun c => negb (isna c)) (values s) in
  str_valid s
  = negb (negb (length present =? 0)
          && (forallb is_num present || forallb is_date present)).
Proof.
  unfold str_valid, str_accessor, infer_dtype. cbn zeta.
  destruct (filter (fun c => negb (isna c)) (values s)) as [|[x|z|t|] present];
    try reflexivity.
  - cbn [forallb is_str andb]. destruct (forallb is_str present); [reflexivity|].
    destruct (existsb is_num (CStr x :: present)); reflexivity.
  - cbn [forallb is_num is_date andb orb length Nat.eqb negb].
    destruct (forallb is_num present); reflexivity.
  - cbn [forallb is_num is_date andb orb length Nat.eqb negb].
    destruct (forallb is_date present); [reflexivity|].
    destruct (existsb is_num (CDate t :: present)); reflexivity.
Qed.

Lemma count_label_cols l (xs : list (label * Series)) :
  count_label l (map fst xs)
  = length (filter (fun c => label_eqb (fst c) l) xs).
Proof.
  unfold count_label. induction xs as [|c xs IH]; simpl; [reflexivity|].
  destruct (label_eqb (fst c) l); simpl; now rewrite IH.
Qed.

Lemma set_where_nowhere (A : Type) (p : A -> bool) (g : A -> A) (xs : list A) :
  filter p xs = [] -> map (fun c => if p c then g c else c) xs = xs.
Proof.
  induction xs as [|c xs IH]; simpl; [reflexivity|].
  destruct (p c); [discriminate|]. intros H. now rewrite IH.
Qed.

Lemma for_each_raise (A S : Type) (body : S -> A -> result S) x xs st e :
  body st x = Raise e -> for_each body (x :: xs) st = Raise e.
Proof. simpl. now intros ->. Qed.

(** The loop invariant: the columns before the current one are cleaned, the
    others are as they were; the labels never change. *)
Lemma strip_strings_from idx todo : forall done,
  for_each clean_column
    (map fst (filter (fun c => is_object (s_dtype (snd c))) todo))
    (mkDataFrame idx (done ++ todo))
  = if forallb (column_ok (map fst (done ++ todo))) todo
    then Ok (mkDataFrame idx (done ++ map clean_col todo))
    else Raise AttributeError.
Proof.
  induction todo as [|[l s] todo IH]; intros done.
  - simpl. now rewrite app_nil_r.
  - assert (Hnext : forall s',
      for_each clean_column
        (map fst (filter (fun c => is_object (s_dtype (snd c))) todo))
        (mkDataFrame idx (done ++ (l, s') :: todo))
      = if forallb (column_ok (map fst (done ++ (l, s) :: todo))) todo
        then Ok (mkDataFrame idx (done ++ (l, s') :: map clean_col todo))
        else Raise AttributeError).
    { intros s'. specialize (IH (done ++ [(l, s')])).
      rewrite <- !app_assoc in IH. simpl in IH. rewrite IH.
      replace (map fst (done ++ (l, s') :: todo))
        with (map fst (done ++ (l, s) :: todo))
        by (rewrite !map_app; reflexivity).
      reflexivity. }
    cbn [filter forallb snd s_dtype].
    unfold column_ok at 1. cbn [snd fst s_dtype].
    destruct (is_object (s_dtype s)) eqn:Hobj; cbn [negb orb map fst].
    + (* an object column: one turn of the loop *)
      rewrite count_label_cols, filter_app. cbn [filter fst].
      rewrite label_eqb_refl, length_app. cbn [length].
      set (p := fun c : label * Series => label_eqb (fst c) l).
      destruct (filter p done) as [|d fd] eqn:Hd.
      * destruct (filter p todo) as [|t ft] eqn:Ht.
        -- cbn [length Nat.add Nat.eqb andb].
           assert (Hget : getitem (mkDataFrame idx (done ++ (l, s) :: todo)) l
                          = [(l, s)]).
           { unfold getitem. cbn [cols]. rewrite filter_app. fold p.
             rewrite Hd. cbn [filter app]. fold p. rewrite Ht.
             unfold p at 1. cbn [fst]. now rewrite label_eqb_refl. }
           cbn [for_each]. unfold clean_column at 1.
           rewrite Hget, str_accessor_valid.
           destruct (str_valid s); [|reflexivity].
           cbn [bind]. unfold setitem. cbn [cols index].
           rewrite map_app. cbn [map fst]. fold p.
           rewrite (set_where_nowhere _ p _ done Hd).
           rewrite (set_where_nowhere _ p _ todo Ht).
           rewrite label_eqb_refl, Hnext. cbn [andb].
           unfold clean_col at 2. cbn [snd fst].
           rewrite Hobj. reflexivity.
        -- replace (length (@nil (label * Series)) + S (length (t :: ft)) =? 1)
             with false by (cbn [length Nat.add]; reflexivity).
           cbn [andb]. apply for_each_raise.
           unfold clean_column, getitem. cbn [cols]. rewrite filter_app. fold p.
           rewrite Hd. cbn [filter app]. fold p. rewrite Ht.
           unfold p at 1. cbn [fst]. rewrite label_eqb_refl. reflexivity.
      * replace (length (d :: fd) + S (length (filter p todo)) =? 1)
          with false
          by (cbn [length Nat.add]; rewrite Nat.add_succ_r; reflexivity).
        cbn [andb]. apply for_each_raise.
        unfold clean_column, getitem. cbn [cols]. rewrite filter_app. fold p.
        rewrite Hd. cbn [filter app]. fold p.
        unfold p at 1. cbn [fst]. rewrite label_eqb_refl.
        destruct d as [dl ds]. destruct fd; reflexivity.
    + (* another dtype: the loop does not visit the column *)
      rewrite Hnext. unfold clean_col at 2. cbn [snd]. rewrite Hobj. reflexivity.
Qed.

Theorem strip_strings_spec df :
  strip_strings df
  = if cleanable df then Ok (clean_cells df) else Raise AttributeError.
Proof.
  unfold strip_strings, select_dtypes_object, cleanable, clean_cells, columns.
  destruct df as [idx cs]. cbn [cols index].
  exact (strip_strings_from idx cs []).
Qed.

Theorem clean_data_spec df :
  clean_data df
  = if cleanable (normalize_columns df)
    then Ok (drop_duplicates (clean_cells (normalize_columns df)))
    else Raise AttributeError.
Proof.
  unfold clean_data. rewrite strip_strings_spec.
  destruct (cleanable (normalize_columns df)); reflexivity.
Qed.

(** ** Masks, rows and duplicates *)

Lemma filter_mask_nil (A : Type) (m : list bool) : filter_mask m (@nil A) = [].
Proof. destruct m; reflexivity. Qed.

Lemma sum_bool_cons b m : sum_bool (b :: m) = (if b then 1 else 0) + sum_bool m.
Proof. unfold sum_bool. simpl. destruct b; reflexivity. Qed.

Lemma filter_mask_length_le (A : Type) (m : list bool) : forall xs : list A,
  length (filter_mask m xs) <= sum_bool m.
Proof.
  induction m as [|b m IH]; intros xs; [simpl; lia|].
  rewrite sum_bool_cons. destruct xs as [|x xs]; [simpl; lia|].
  simpl. specialize (IH xs). destruct b; simpl; lia.
Qed.

Lemma filter_mask_length (A : Type) (m : list bool) : forall xs : list A,
  length m = length xs -> length (filter_mask m xs) = sum_bool m.
Proof.
  induction m as [|b m IH]; intros xs H; [reflexivity|].
  rewrite sum_bool_cons. destruct xs as [|x xs]; [discriminate|].
  injection H as H. simpl. specialize (IH xs H). destruct b; simpl; lia.
Qed.


Lemma filter_mask_all (A B : Type) (ks : list B) : forall xs : list A,
  length xs <= length ks ->
  filter_mask (map negb (map (fun _ => false) ks)) xs = xs.
Proof.
  induction ks as [|k ks IH]; intros xs H.
  - destruct xs; [reflexivity | simpl in H; lia].
  - destruct xs as [|x xs]; [reflexivity|].
    simpl in *. rewrite IH; [reflexivity | lia].
Qed.

Lemma rows_of_length n : forall cvs, length (rows_of n cvs) = n.
Proof. induction n as [|n IH]; intros cvs; simpl; [reflexivity | now rewrite IH]. Qed.

Lemma duplicated_from_length rs : forall seen,
  length (duplicated_from seen rs) = length rs.
Proof.
  induction rs as [|r rs IH]; intros seen; simpl; [reflexivity|].
  destruct (existsb (row_eqb r) seen); simpl; now rewrite IH.
Qed.

(** Masking the columns masks the rows. *)
Lemma rows_of_filter_mask m : forall cvs,
  rows_of (sum_bool m) (map (filter_mask m) cvs)
  = filter_mask m (rows_of (length m) cvs).
Proof.
  induction m as [|b m IH]; intros cvs; [reflexivity|].
  rewrite sum_bool_cons. cbn [length rows_of].
  assert (Htl : map (filter_mask m) (map (@tl cell) cvs)
                = map (fun vs => filter_mask m (tl vs)) cvs)
    by (now rewrite map_map).
  destruct b; cbn [filter_mask Nat.add rows_of].
  - f_equal.
    + rewrite map_map. apply map_ext. intros [|v vs]; reflexivity.
    + rewrite <- IH, Htl, map_map. f_equal. apply map_ext.
      intros [|v vs]; [now rewrite filter_mask_nil | reflexivity].
  - rewrite <- IH, Htl. f_equal. apply map_ext.
    intros [|v vs]; [now rewrite filter_mask_nil | reflexivity].
Qed.

(** The rows kept by one pass hold no duplicate. *)
Lemma duplicated_from_kept rs : forall seen,
  let kept := filter_mask (map negb (duplicated_from seen rs)) rs in
  duplicated_from seen kept = map (fun _ => false) kept.
Proof.
  induction rs as [|r rs IH]; intros seen; [reflexivity|].
  cbn zeta in *. cbn [duplicated_from].
  destruct (existsb (row_eqb r) seen) eqn:E; cbn [map negb filter_mask].
  - apply IH.
  - cbn [duplicated_from]. rewrite E. cbn [map]. f_equal. apply IH.
Qed.

Lemma Series_eta s : mkSeries (s_dtype s) (values s) = s.
Proof. destruct s; reflexivity. Qed.

Lemma boolean_mask_values df mask :
  map (fun c => values (snd c)) (cols (boolean_mask df mask))
  = map (filter_mask mask) (map (fun c => values (snd c)) (cols df)).
Proof. unfold boolean_mask. cbn [cols]. rewrite !map_map. reflexivity. Qed.

Lemma duplicated_length df :
  empty df = false -> length (duplicated df) = nrows df.
Proof.
  intros E. unfold duplicated, rows, nrows. rewrite E.
  now rewrite duplicated_from_length, rows_of_length.
Qed.

Lemma rows_boolean_mask df mask :
  length mask = nrows df ->
  rows (boolean_mask df mask) = filter_mask mask (rows df).
Proof.
  intros H. unfold rows at 1. rewrite boolean_mask_values.
  unfold boolean_mask at 1. cbn [index].
  rewrite (filter_mask_length _ mask (index df) H).
  rewrite rows_of_filter_mask, H. reflexivity.
Qed.


Lemma boolean_mask_all df (B : Type) (ks : list B) :
  nrows df <= length ks ->
  Forall (fun c => length (values (snd c)) <= length ks) (cols df) ->
  boolean_mask df (map negb (map (fun _ => false) ks)) = df.
Proof.
  intros Hi Hc. apply DataFrame_eq.
  - unfold boolean_mask. cbn [index]. now apply filter_mask_all.
  - unfold boolean_mask. cbn [cols].
    induction Hc as [|[l s] cs H _ IH]; [reflexivity|].
    cbn [map fst snd] in *. rewrite IH, filter_mask_all by exact H.
    now rewrite Series_eta.
Qed.

Theorem drop_duplicates_idem df :
  drop_duplicates (drop_duplicates df) = drop_duplicates df.
Proof.
  destruct (empty df) eqn:E.
  - unfold drop_duplicates. now rewrite !E.
  - pose proof (duplicated_length df E) as L.
    assert (Hdd : drop_duplicates df = boolean_mask df (map negb (duplicated df)))
      by (unfold drop_duplicates; now rewrite E).
    rewrite Hdd.
    set (keep := map negb (duplicated df)).
    assert (Lk : length keep = nrows df) by (unfold keep; now rewrite length_map).
    set (kept := boolean_mask df keep).
    unfold drop_duplicates. destruct (empty kept) eqn:E'; [reflexivity|].
    unfold duplicated at 1. rewrite E'.
    unfold kept at 2. rewrite (rows_boolean_mask df keep Lk).
    assert (Hk : keep = map negb (duplicated_from [] (rows df)))
      by (unfold keep, duplicated; now rewrite E).
    rewrite Hk at 1. rewrite (duplicated_from_kept (rows df) []).
    rewrite <- Hk.
    assert (Lr : length (filter_mask keep (rows df)) = sum_bool keep).
    { apply filter_mask_length. unfold rows. now rewrite rows_of_length. }
    apply boolean_mask_all.
    + rewrite Lr. unfold kept, boolean_mask, nrows. cbn [index].
      apply filter_mask_length_le.
    + rewrite Lr. unfold kept, boolean_mask. cbn [cols].
      apply Forall_map, Forall_forall. intros c _. cbn [snd values].
      apply filter_mask_length_le.
Qed.

(** *** What [duplicated] marks *)

Lemma cell_eqb_eq a b : cell_eqb a b = true <-> a = b.
Proof.
  destruct a, b; simpl; split; intros H; try discriminate; try reflexivity.
  - apply String.eqb_eq in H. now subst.
  - injection H as ->. apply String.eqb_refl.
  - apply Z.eqb_eq in H. now subst.
  - injection H as ->. apply Z.eqb_refl.
  - apply Z.eqb_eq in H. now subst.
  - injection H as ->. apply Z.eqb_refl.
Qed.

Lemma row_eqb_eq r1 : forall r2, row_eqb r1 r2 = true <-> r1 = r2.
Proof.
  induction r1 as [|a r1 IH]; intros [|b r2]; simpl; split; intros H;
    try discriminate; try reflexivity.
  - apply andb_prop in H as [H1 H2].
    apply cell_eqb_eq in H1. apply IH in H2. now subst.
  - injection H as -> ->. apply andb_true_intro. split.
    + now apply cell_eqb_eq.
    + now apply IH.
Qed.

Lemma existsb_row_In r seen : existsb (row_eqb r) seen = true <-> In r seen.
Proof.
  rewrite existsb_exists. split.
  - intros (x & Hin & E). apply row_eqb_eq in E. now subst.
  - intros Hin. exists r. split; [exact Hin | now apply row_eqb_eq].
Qed.

(** A row is marked when it is in the table already or equals a row before
    it. *)
Lemma duplicated_from_marks rs : forall seen i r,
  nth_error rs i = Some r ->
  (nth i (duplicated_from seen rs) false = true
   <-> In r seen \/ exists j, j < i /\ nth_error rs j = Some r).
Proof.
  induction rs as [|r0 rs IH]; intros seen i r Hi; [now destruct i|].
  cbn [duplicated_from].
  destruct (existsb (row_eqb r0) seen) eqn:E.
  - apply existsb_row_In in E. destruct i as [|i]; cbn in Hi |- *.
    + injection Hi as <-. split; [now left | reflexivity].
    + rewrite (IH seen i r Hi). split.
      * intros [H | (j & Hj & Hr)]; [now left|].
        right. exists (S j). split; [lia | exact Hr].
      * intros [H | (j & Hj & Hr)]; [now left|].
        destruct j as [|j]; cbn in Hr.
        -- injection Hr as <-. now left.
        -- right. exists j. split; [lia | exact Hr].
  - assert (N : ~ In r0 seen).
    { intros H. apply existsb_row_In in H. congruence. }
    destruct i as [|i]; cbn in Hi |- *.
    + injection Hi as <-. split; [discriminate|].
      intros [H | (j & Hj & _)]; [contradiction | lia].
    + rewrite (IH (r0 :: seen) i r Hi). split.
      * intros [[<- | H] | (j & Hj & Hr)].
        -- right. exists 0. split; [lia | reflexivity].
        -- now left.
        -- right. exists (S j). split; [lia | exact Hr].
      * intros [H | (j & Hj & Hr)]; [left; now right|].
        destruct j as [|j]; cbn in Hr.
        -- injection Hr as <-. left. now left.
        -- right. exists j. split; [lia | exact Hr].
Qed.

(** [df.duplicated()] marks the rows that repeat an earlier row. *)
Theorem duplicated_marks_repeats df i r :
  empty df = false -> nth_error (rows df) i = Some r ->
  (nth i (duplicated df) false = true
   <-> exists j, j < i /\ nth_error (rows df) j = Some r).
Proof.
  intros E Hi. unfold duplicated. rewrite E.
  rewrite (duplicated_from_marks (rows df) [] i r Hi).
  split; [intros [[] | H]; exact H | intros H; now right].
Qed.

(** *** Rows after the cleaning of the cells *)







(** ** Frames the Cleaner has been through *)

Lemma clean_col_header : keeps_header clean_col.
Proof.
  intros [l s]. unfold clean_col. cbn [fst snd].
  destruct (is_object (s_dtype s)); split; reflexivity.
Qed.

Lemma mask_col_header mask :
  keeps_header (fun c => (fst c, mkSeries (s_dtype (snd c))
                                   (filter_mask mask (values (snd c))))).
Proof. intros c. split; reflexivity. Qed.

Lemma keeps_header_labels h cs :
  keeps_header h -> map fst (map h cs) = map fst cs.
Proof.
  intros H. rewrite map_map. apply map_ext. intros c. apply (H c).
Qed.

Lemma forallb_over_map (A B : Type) (f : A -> B) (p : B -> bool) (l : list A) :
  forallb p (map f l) = forallb (fun x => p (f x)) l.
Proof. induction l as [|x l IH]; simpl; [reflexivity | now rewrite IH]. Qed.

Lemma forallb_same (A : Type) (p q : A -> bool) (l : list A) :
  (forall x, p x = q x) -> forallb p l = forallb q l.
Proof.
  intros E. induction l as [|x l IH]; simpl; [reflexivity | now rewrite E, IH].
Qed.

Lemma object_labels_unique_map h df df' :
  keeps_header h -> cols df' = map h (cols df) ->
  object_labels_unique df' = object_labels_unique df.
Proof.
  intros H E. unfold object_labels_unique, columns. rewrite E.
  rewrite (keeps_header_labels h (cols df) H), forallb_over_map.
  apply forallb_same. intros c. unfold own_label.
  destruct (H c) as [-> ->]. reflexivity.
Qed.

Lemma drop_duplicates_cols df :
  exists h, keeps_header h /\ cols (drop_duplicates df) = map h (cols df)
            /\ forall c, exists mask,
                 values (snd (h c)) = filter_mask mask (values (snd c))
                 \/ h c = c.
Proof.
  unfold drop_duplicates. destruct (empty df).
  - exists (fun c => c). split; [|split].
    + intros c. split; reflexivity.
    + now rewrite map_id.
    + intros c. exists []. now right.
  - eexists. split; [apply (mask_col_header (map negb (duplicated df)))|].
    split; [reflexivity|].
    intros c. exists (map negb (duplicated df)). now left.
Qed.

Lemma columns_drop_duplicates df : columns (drop_duplicates df) = columns df.
Proof.
  destruct (drop_duplicates_cols df) as (h & H & E & _).
  unfold columns. rewrite E. now apply keeps_header_labels.
Qed.

Lemma columns_clean_cells df : columns (clean_cells df) = columns df.
Proof.
  unfold columns, clean_cells. cbn [cols].
  apply keeps_header_labels, clean_col_header.
Qed.

Lemma normalized_fixed df : normalized df -> normalize_columns df = df.
Proof.
  intros H. apply DataFrame_eq; [reflexivity|].
  rewrite normalize_columns_cols. unfold normalized, columns in H.
  induction (cols df) as [|[l s] cs IH]; [reflexivity|].
  cbn [map fst snd] in *. inversion H as [|? ? Hl Hcs]; subst.
  now rewrite Hl, IH.
Qed.

Lemma normalize_columns_normalized df : normalized (normalize_columns df).
Proof.
  unfold normalized. rewrite normalize_columns_columns.
  apply Forall_map, Forall_forall. intros l _. apply normalize_label_idem.
Qed.

Lemma strip_idem s : Py.strip (Py.strip s) = Py.strip s.
Proof.
  destruct (PyFacts.strip_stripped s). now apply PyFacts.strip_fixed.
Qed.

Lemma clean_cell_idem v : clean_cell (clean_cell v) = clean_cell v.
Proof.
  destruct v as [x| | |]; try reflexivity.
  unfold clean_cell. cbn [str_strip_cell].
  destruct (Py.strip x) as [|a r] eqn:E; [reflexivity|].
  cbn [replace_empty_cell str_strip_cell].
  rewrite <- E, strip_idem, E. reflexivity.
Qed.

Lemma clean_series_values s :
  values (clean_series s) = map clean_cell (values s).
Proof. unfold clean_series, replace_empty_NA, str_strip. cbn. now rewrite map_map. Qed.

Lemma cleaned_clean_cells df : cleaned (clean_cells df).
Proof.
  unfold cleaned, clean_cells. cbn [cols].
  apply Forall_map, Forall_forall. intros [l s] _. unfold clean_col. cbn [snd fst].
  destruct (is_object (s_dtype s)) eqn:E; cbn [snd]; [|congruence].
  intros _. rewrite clean_series_values.
  apply Forall_map, Forall_forall. intros v _. apply clean_cell_idem.
Qed.

Lemma Forall_filter_mask (A : Type) (P : A -> Prop) mask : forall xs,
  Forall P xs -> Forall P (filter_mask mask xs).
Proof.
  induction mask as [|b m IH]; intros xs H; [constructor|].
  destruct H as [|x xs Hx Hxs]; [constructor|].
  simpl. destruct b; [constructor; [exact Hx|] |]; now apply IH.
Qed.

Lemma cleaned_drop_duplicates df : cleaned df -> cleaned (drop_duplicates df).
Proof.
  unfold cleaned. destruct (drop_duplicates_cols df) as (h & H & -> & V).
  intros C. apply Forall_map. revert C. apply Forall_impl. intros c Hc Hobj.
  destruct (H c) as [_ Hd]. rewrite Hd in Hobj. specialize (Hc Hobj).
  destruct (V c) as [mask [-> | ->]]; [now apply Forall_filter_mask | exact Hc].
Qed.

Lemma cleaned_fixed df : cleaned df -> clean_cells df = df.
Proof.
  unfold cleaned, clean_cells. intros C.
  apply DataFrame_eq; [reflexivity|]. cbn [cols].
  induction C as [|[l s] cs Hc _ IH]; [reflexivity|].
  cbn [map]. rewrite IH. f_equal. unfold clean_col. cbn [fst snd] in *.
  destruct (is_object (s_dtype s)); [|reflexivity].
  specialize (Hc eq_refl). f_equal.
  rewrite <- (Series_eta s) at 2. unfold clean_series, replace_empty_NA, str_strip.
  cbn [s_dtype values]. f_equal. rewrite map_map.
  rewrite <- (map_id (values s)) at 2. apply map_ext_Forall. exact Hc.
Qed.

Lemma cleaned_cell_kind v : clean_cell v = v -> is_str v = true \/ v = CNA.
Proof. destruct v; cbn; intros H; try discriminate; auto. Qed.

Lemma infer_dtype_text vs :
  Forall (fun v => clean_cell v = v) vs ->
  infer_dtype vs = inf_empty \/ infer_dtype vs = inf_string.
Proof.
  intros H. unfold infer_dtype.
  assert (P : forallb is_str (filter (fun c => negb (isna c)) vs) = true).
  { apply forallb_forall. intros v Hv. apply filter_In in Hv as [Hin Hna].
    rewrite Forall_forall in H.
    destruct (cleaned_cell_kind v (H v Hin)) as [Hs | ->]; [exact Hs | discriminate]. }
  destruct (filter (fun c => negb (isna c)) vs) as [|[x| | |] present] eqn:E;
    auto; try (cbn in P; discriminate).
  rewrite P. auto.
Qed.

Lemma cleaned_str_valid df c :
  cleaned df -> In c (cols df) -> is_object (s_dtype (snd c)) = true ->
  str_valid (snd c) = true.
Proof.
  unfold cleaned. rewrite Forall_forall. intros C Hin Hobj.
  unfold str_valid, str_accessor.
  destruct (infer_dtype_text _ (C c Hin Hobj)) as [-> | ->]; reflexivity.
Qed.

Lemma cleanable_unique df : cleanable df = true -> object_labels_unique df = true.
Proof.
  unfold cleanable, object_labels_unique. rewrite !forallb_forall.
  intros H c Hin. specialize (H c Hin). unfold column_ok in H. unfold own_label.
  destruct (negb (is_object (s_dtype (snd c)))); [reflexivity|].
  cbn [orb] in *. now apply andb_prop in H as [H _].
Qed.

Lemma cleaned_cleanable df :
  cleaned df -> object_labels_unique df = true -> cleanable df = true.
Proof.
  unfold cleanable, object_labels_unique. rewrite !forallb_forall.
  intros C H c Hin. specialize (H c Hin). unfold own_label in H. unfold column_ok.
  destruct (is_object (s_dtype (snd c))) eqn:Hobj; [|reflexivity].
  cbn [negb orb] in *. rewrite H. cbn [andb].
  exact (cleaned_str_valid df c C Hin Hobj).
Qed.

(** The frame the Cleaner returns goes through the Cleaner unchanged. *)
Lemma clean_data_fixed df :
  cleanable df = true -> normalized df ->
  let out := drop_duplicates (clean_cells df) in
  clean_data out = Ok out.
Proof.
  intros Hc Hn out.
  assert (Cout : cleaned out)
    by apply cleaned_drop_duplicates, cleaned_clean_cells.
  assert (Nout : normalize_columns out = out).
  { apply normalized_fixed. unfold normalized, out.
    now rewrite columns_drop_duplicates, columns_clean_cells. }
  assert (Uout : object_labels_unique out = true).
  { destruct (drop_duplicates_cols (clean_cells df)) as (h & H & E & _).
    unfold out. rewrite (object_labels_unique_map h _ _ H E).
    rewrite (object_labels_unique_map clean_col df (clean_cells df)
               clean_col_header eq_refl).
    now apply cleanable_unique. }
  rewrite clean_data_spec, Nout, (cleaned_cleanable out Cout Uout).
  rewrite (cleaned_fixed out Cout). unfold out. now rewrite drop_duplicates_idem.
Qed.

(** ** The Validator against its description *)

Lemma isna_sum_missing_cells s : isna_sum s = missing_cells s.
Proof.
  unfold isna_sum, missing_cells. induction (values s) as [|v vs IH]; [reflexivity|].
  cbn [filter count_occ].
  destruct v as [x|z|t|]; cbn [isna];
    (destruct (cell_eq_dec _ CNA) as [e|ne];
     [try discriminate e | try (exfalso; apply ne; reflexivity)]);
    cbn [length]; now rewrite IH.
Qed.

Lemma label_eqb_sym a b : label_eqb a b = label_eqb b a.
Proof.
  destruct a, b; simpl; try reflexivity;
    [apply String.eqb_sym | apply Z.eqb_sym].
Qed.

Lemma contains_columns df col :
  contains (columns df) col
  = existsb (fun c => label_eqb (fst c) col) (cols df).
Proof.
  unfold contains, columns. induction (cols df) as [|c cs IH]; [reflexivity|].
  cbn [map existsb]. now rewrite IH, label_eqb_sym.
Qed.

(** [df[col]] when no two columns bear the label [col]. *)
Lemma getitem_at_most_one df col :
  count_label col (columns df) <= 1 ->
  let p := fun c : label * Series => label_eqb (fst c) col in
  (contains (columns df) col = false /\ find p (cols df) = None)
  \/ (exists c, contains (columns df) col = true /\ find p (cols df) = Some c
                /\ getitem df col = [c]).
Proof.
  intros H p. rewrite contains_columns. unfold columns in H.
  rewrite count_label_cols in H. unfold getitem. fold p in H |- *.
  induction (cols df) as [|c cs IH]; [left; split; reflexivity|].
  cbn [filter find existsb] in *. destruct (p c) eqn:E.
  - right. exists c. repeat split. f_equal. cbn [length] in H.
    destruct (filter p cs); [reflexivity | cbn [length] in H; lia].
  - cbn [orb]. apply IH, H.
Qed.

Lemma validate_column_spec df issues col :
  count_label (LStr col) (columns df) <= 1 ->
  validate_column df issues col = Ok (issues ++ required_issue df col).
Proof.
  intros H. unfold validate_column, required_issue.
  destruct (getitem_at_most_one df (LStr col) H) as [[Hc Hf] | (c & Hc & Hf & Hg)];
    cbn zeta in *; rewrite Hc, Hf; cbn [negb]; [reflexivity|].
  rewrite Hg. destruct c as [l s]. rewrite isna_sum_missing_cells.
  destruct (0 <? missing_cells s); [reflexivity | now rewrite app_nil_r].
Qed.

Lemma for_each_validate df required_columns : forall issues,
  (forall col, In col required_columns -> count_label (LStr col) (columns df) <= 1) ->
  for_each (validate_column df) required_columns issues
  = Ok (issues ++ flat_map (required_issue df) required_columns).
Proof.
  induction required_columns as [|col rest IH]; intros issues H.
  - cbn. now rewrite app_nil_r.
  - cbn [for_each flat_map].
    rewrite validate_column_spec by (apply H; now left).
    cbn [bind]. rewrite IH by (intros c Hc; apply H; now right).
    now rewrite app_assoc.
Qed.

(** The Validator computes the described sequence whenever no required name
    is borne by two columns. *)
Lemma validate_data_refines df required_columns :
  (forall col, In col required_columns -> count_label (LStr col) (columns df) <= 1) ->
  validate_data df required_columns = Ok (validate_spec df required_columns).
Proof.
  intros H. unfold validate_data, validate_spec, duplicate_issue.
  rewrite for_each_validate by exact H.
  destruct (0 <? sum_bool (duplicated df)); reflexivity.
Qed.

Lemma count_label_NoDup ls l : NoDup ls -> count_label l ls <= 1.
Proof.
  unfold count_label. induction 1 as [|x xs Hx _ IH]; [simpl; lia|].
  cbn [filter]. destruct (label_eqb x l) eqn:E; [|exact IH].
  apply label_eqb_eq in E. subst x. cbn [length].
  destruct (filter (fun l' => label_eqb l' l) xs) as [|y ys] eqn:F; [simpl; lia|].
  exfalso. apply Hx.
  assert (Hy : In y (filter (fun l' => label_eqb l' l) xs)) by (rewrite F; now left).
  apply filter_In in Hy as [Hin Hy]. apply label_eqb_eq in Hy. now subst y.
Qed.

Lemma find_NoDup df l s :
  NoDup (columns df) -> In (l, s) (cols df) ->
  find (fun c => label_eqb (fst c) l) (cols df) = Some (l, s).
Proof.
  unfold columns. induction (cols df) as [|[l' s'] cs IH]; intros N Hin; [easy|].
  cbn [map fst] in N. inversion N as [|? ? Hn N']; subst.
  cbn [find fst]. destruct Hin as [E | Hin].
  - injection E as -> ->. now rewrite label_eqb_refl.
  - destruct (label_eqb l' l) eqn:E; [|now apply IH].
    apply label_eqb_eq in E. subst l'. exfalso. apply Hn.
    change l with (fst (l, s)). now apply in_map.
Qed.

(** ** Properties of the core *)

(** *** Cells the Cleaner does not own *)

(** Columns of another dtype go through the loop untouched. *)
Lemma clean_col_other_dtype l s :
  is_object (s_dtype s) = false -> clean_col (l, s) = (l, s).
Proof. unfold clean_col. cbn [snd]. now intros ->. Qed.

(** C1. The Cleaner is to leave every cell that is not a string as it is.
    In a column of dtype object it does not: the number 5 next to the string
    "abc" comes out as the missing marker. *)
Theorem C1_number_in_text_column_lost :
  clean_data mixed_column
  = Ok (mkDataFrame (range_index 2) [(LStr "x", text [CStr "abc"; CNA])]).
Proof. reflexivity. Qed.

(** *** When the core raises *)

Lemma colliding_names_distinct : NoDup (columns colliding_names).
Proof.
  apply NoDup_cons; [cbn; intuition discriminate|].
  apply NoDup_cons; [cbn; intuition | apply NoDup_nil].
Qed.


(** A column of dtype object that holds numbers only is refused by [.str]. *)
Example numbers_only_refused :
  clean_data (mkDataFrame (range_index 2) [(LStr "n", text [CNum 1; CNum 2])])
  = Raise AttributeError.
Proof. reflexivity. Qed.

(** A required name borne by two columns. *)
Example required_name_twice :
  validate_data (normalize_columns colliding_names) ["a"] = Raise ValueError.
Proof. reflexivity. Qed.

Lemma for_each_ok_inv (A S : Type) (body : S -> A -> result S) x xs st out :
  for_each body (x :: xs) st = Ok out ->
  exists st', body st x = Ok st' /\ for_each body xs st' = Ok out.
Proof.
  cbn [for_each]. destruct (body st x) as [st'|e]; cbn [bind]; [|discriminate].
  intros H. now exists st'.
Qed.





(** *** Column names through the Normalizer *)

(** C3, as stated, fails: the distinct names "A" and "a" are both normalized
    to "a". *)
Lemma C3_counterexample :
  NoDup (columns colliding_names)
  /\ ~ NoDup (columns (normalize_columns colliding_names)).
Proof.
  split; [exact colliding_names_distinct|].
  intros N. inversion N as [|? ? Hn _]; subst. apply Hn. now left.
Qed.

(** C3, amended.  The Normalizer keeps the columns in number, order and
    content and gives each the normal form of its name; the names it returns
    are pairwise distinct exactly when no two columns of the input have names
    of the same normal form, as is the case of distinct names that are
    already normalized. *)
Theorem C3_normalizer_columns df :
  columns (normalize_columns df) = map normalize_label (columns df)
  /\ map snd (cols (normalize_columns df)) = map snd (cols df)
  /\ (NoDup (columns (normalize_columns df))
      <-> forall i j a b,
            nth_error (columns df) i = Some a ->
            nth_error (columns df) j = Some b ->
            normalize_label a = normalize_label b -> i = j)
  /\ (normalized df -> NoDup (columns df) ->
      NoDup (columns (normalize_columns df))).
Proof.
  split; [apply normalize_columns_columns|].
  split; [rewrite normalize_columns_cols, map_map; reflexivity|].
  split.
  - rewrite normalize_columns_columns, NoDup_nth_error. split.
    + intros H i j a b Ha Hb E. apply H.
      * rewrite length_map. apply nth_error_Some. congruence.
      * rewrite !nth_error_map, Ha, Hb. cbn. now rewrite E.
    + intros H i j Hi E. rewrite length_map in Hi.
      apply nth_error_Some in Hi.
      rewrite !nth_error_map in E.
      destruct (nth_error (columns df) i) as [a|] eqn:Ha; [|easy].
      destruct (nth_error (columns df) j) as [b|] eqn:Hb; [|discriminate].
      cbn [option_map] in E. injection E as E.
      exact (H i j a b Ha Hb (f_equal LStr E)).
  - intros Hn N. now rewrite (normalized_fixed df Hn).
Qed.

Lemma C3_witness :
  NoDup (columns (normalize_columns scenario_a)).
Proof.
  apply (proj1 (proj2 (proj2 (C3_normalizer_columns scenario_a)))).
  intros [|[|i]] [|[|j]] a b Ha Hb E; try reflexivity;
    cbn in Ha, Hb; try (destruct i; discriminate); try (destruct j; discriminate);
    injection Ha as <-; injection Hb as <-; discriminate.
Defined.

(** *** Row counts *)




(** *** The Validator *)

Lemma count_occ_two (vs : list cell) (a b : cell) :
  a <> b ->
  count_occ cell_eq_dec vs a + count_occ cell_eq_dec vs b <= length vs.
Proof.
  intros Hab. induction vs as [|v vs IH]; [simpl; lia|].
  cbn [count_occ length].
  destruct (cell_eq_dec v a) as [Ea|Na], (cell_eq_dec v b) as [Eb|Nb]; try lia.
  exfalso. apply Hab. congruence.
Qed.

Lemma validate_one df col l s :
  find (fun c => label_eqb (fst c) (LStr col)) (cols df) = Some (l, s) ->
  required_issue df col
  = if 0 <? missing_cells s
    then [missing_values_issue col (missing_cells s)] else [].
Proof. unfold required_issue. now intros ->. Qed.

(** C5. For a table and a required name that labels one of its columns, the
    count the Validator reports for that column is the number of its cells
    that hold the missing marker; cells holding the empty string are other
    cells and are not counted. *)
Theorem C5_missing_count_is_marker_count df col s :
  NoDup (columns df) -> In (LStr col, s) (cols df) ->
  validate_data df [col]
  = Ok (duplicate_issue df
        ++ (if 0 <? missing_cells s
            then [missing_values_issue col (missing_cells s)] else []))
  /\ isna_sum s = count_occ cell_eq_dec (values s) CNA
  /\ isna_sum s + count_occ cell_eq_dec (values s) (CStr "") <= length (values s).
Proof.
  intros N Hin. split; [|split].
  - rewrite validate_data_refines
      by (intros c _; now apply count_label_NoDup).
    unfold validate_spec. cbn [flat_map]. rewrite app_nil_r.
    now rewrite (validate_one df col _ s (find_NoDup df _ s N Hin)).
  - apply isna_sum_missing_cells.
  - rewrite isna_sum_missing_cells. apply count_occ_two. discriminate.
Qed.

Example scenario_c_issues : validate_data scenario_c ["amount"] = Ok [].
Proof. reflexivity. Qed.

Example scenario_c_cleaned :
  option_map isna_sum
    (match clean_data scenario_c with
     | Ok out => option_map snd (nth_error (cols out) 1)
     | Raise _ => None
     end) = Some 3.
Proof. reflexivity. Qed.

Lemma C5_witness :
  validate_data scenario_c ["amount"]
  = Ok (duplicate_issue scenario_c
        ++ (if 0 <? missing_cells amounts
            then [missing_values_issue "amount" (missing_cells amounts)] else []))
  /\ isna_sum amounts = count_occ cell_eq_dec (values amounts) CNA
  /\ isna_sum amounts + count_occ cell_eq_dec (values amounts) (CStr "")
     <= length (values amounts).
Proof.
  apply (C5_missing_count_is_marker_count scenario_c "amount" amounts).
  - apply NoDup_cons; [cbn; intuition discriminate|].
    apply NoDup_cons; [cbn; intuition | apply NoDup_nil].
  - right. left. reflexivity.
Defined.



Example validate_spec_scenario_a :
  validate_spec (normalize_columns scenario_a) ["category"; "date"]
  = ["1 duplicate rows found"; "Missing required column: category"].
Proof. reflexivity. Qed.

(** *** The report *)

(** C7. The report has the single column "Validation_Issues"; without issues
    it holds the one row "No issues found", and otherwise one row per issue,
    in order. *)
Theorem C7_report_table issues :
  columns (report issues) = [LStr "Validation_Issues"]
  /\ map (fun c => values (snd c)) (cols (report issues))
     = [ match issues with
         | [] => [CStr "No issues found"]
         | _ :: _ => map CStr issues
         end ]
  /\ nrows (report issues)
     = match issues with
       | [] => 1
       | _ :: _ => length issues
       end.
Proof.
  destruct issues as [|i issues]; repeat split.
  unfold report, frame_of_strings, nrows. cbn [index].
  now rewrite length_map, length_seq.
Qed.

(** *** Idempotence *)

(** C8. The Normalizer is idempotent, on tables and on names. *)
Theorem C8_normalizer_idempotent :
  (forall df, normalize_columns (normalize_columns df) = normalize_columns df)
  /\ (forall s, normalize_name (normalize_name s) = normalize_name s).
Proof. split; [exact normalize_columns_idem | exact normalize_name_idem]. Qed.

(** C9. The Cleaner is idempotent on its own output: cleaning what it
    returned returns the same table (and a table it refuses stays refused). *)
Theorem C9_cleaner_idempotent df :
  (out <- clean_data df ;; clean_data out) = clean_data df.
Proof.
  rewrite clean_data_spec.
  destruct (cleanable (normalize_columns df)) eqn:E; [|reflexivity].
  cbn [bind].
  exact (clean_data_fixed (normalize_columns df) E
           (normalize_columns_normalized df)).
Qed.

(** C10. The Cleaner normalizes the names itself: it returns the same on a
    table and on its normalization, and the names of what it returns are the
    normal forms of the names it was given. *)
Theorem C10_cleaner_normalizes df :
  clean_data df = clean_data (normalize_columns df)
  /\ forall out, clean_data df = Ok out ->
       columns out = map normalize_label (columns df) /\ normalized out.
Proof.
  split.
  - unfold clean_data. now rewrite normalize_columns_idem.
  - intros out. rewrite clean_data_spec.
    destruct (cleanable (normalize_columns df)); [|discriminate].
    intros H. injection H as <-.
    assert (C : columns (drop_duplicates (clean_cells (normalize_columns df)))
                = map normalize_label (columns df)).
    { now rewrite columns_drop_duplicates, columns_clean_cells,
        normalize_columns_columns. }
    split; [exact C|]. unfold normalized. rewrite C.
    apply Forall_map, Forall_forall. intros l _. apply normalize_label_idem.
Qed.

Lemma C10_witness :
  columns (mkDataFrame [0%Z; 1%Z]
             [ (LStr "date", text [CStr "d1"; CStr "d2"]);
               (LStr "amount", mkSeries int64 [CNum 10; CNum 20]) ])
  = map normalize_label (columns scenario_a).
Proof.
  apply (proj2 (C10_cleaner_normalizes scenario_a)). reflexivity.
Defined.

(** ** Further properties of the code *)

(** *** The shape of a normalized name *)

Lemma chars_map_chars f s : chars (Py.map_chars f s) = map f (chars s).
Proof. induction s as [|c s IH]; simpl; [reflexivity | now rewrite IH]. Qed.

Lemma underscore_lower_no_space c :
  Py.underscore_for_space (Py.lower_char c) <> " "%char.
Proof. PyFacts.each_char c. Qed.

Lemma normalize_name_lower s : Py.lower (normalize_name s) = normalize_name s.
Proof.
  unfold normalize_name. rewrite PyFacts.replace_is_map. unfold Py.lower.
  rewrite !PyFacts.map_chars_map_chars.
  apply PyFacts.map_chars_ext. intros c. apply PyFacts.lower_underscore.
Qed.

Lemma normalize_name_no_space s :
  Forall (fun c => c <> " "%char) (chars (normalize_name s)).
Proof.
  unfold normalize_name. rewrite PyFacts.replace_is_map. unfold Py.lower.
  rewrite PyFacts.map_chars_map_chars, chars_map_chars.
  apply Forall_map, Forall_forall. intros c _. apply underscore_lower_no_space.
Qed.

(** X1. Every column name the Normalizer returns is a string that [strip]
    and [lower] leave alone and that holds no space. *)
Theorem X1_normalized_names df l :
  In l (columns (normalize_columns df)) ->
  exists name,
    l = LStr name
    /\ Py.strip name = name
    /\ Py.lower name = name
    /\ Forall (fun c => c <> " "%char) (chars name).
Proof.
  rewrite normalize_columns_columns. intros H.
  apply in_map_iff in H as (l0 & <- & _).
  exists (normalize_name (astype_str l0)). split; [reflexivity|].
  split; [apply normalize_name_stripped|].
  split; [apply normalize_name_lower | apply normalize_name_no_space].
Qed.

Lemma X1_witness :
  exists name,
    LStr "date" = LStr name
    /\ Py.strip name = name
    /\ Py.lower name = name
    /\ Forall (fun c => c <> " "%char) (chars name).
Proof.
  apply (X1_normalized_names scenario_a (LStr "date")). left. reflexivity.
Defined.

(** *** What the Cleaner returns *)



Lemma clean_data_ok_inv df out :
  clean_data df = Ok out ->
  cleanable (normalize_columns df) = true
  /\ strip_strings (normalize_columns df)
     = Ok (clean_cells (normalize_columns df))
  /\ out = drop_duplicates (clean_cells (normalize_columns df)).
Proof.
  rewrite clean_data_spec, strip_strings_spec.
  destruct (cleanable (normalize_columns df)); [|discriminate].
  intros H. injection H as <-. repeat split.
Qed.



Lemma clean_cell_fixed v :
  clean_cell v = v
  <-> v = CNA \/ exists x, v = CStr x /\ x <> "" /\ Py.strip x = x.
Proof.
  split.
  - destruct v as [x|z|t|]; cbn; intros H; try discriminate; [|now left].
    right. exists x. unfold clean_cell in H. cbn [str_strip_cell] in H.
    destruct (Py.strip x) as [|a r] eqn:E; [discriminate|].
    cbn in H. injection H as H. rewrite <- H. repeat split. discriminate.
  - intros [-> | (x & -> & Hx & Hs)]; [reflexivity|].
    unfold clean_cell. cbn [str_strip_cell]. rewrite Hs.
    destruct x; [contradiction | reflexivity].
Qed.

(** X3. In the table the Cleaner returns, a cell of a column of dtype object
    is missing or is a string that is not empty and has no surrounding
    whitespace. *)
Theorem X3_cleaned_text_cells df out l s v :
  clean_data df = Ok out ->
  In (l, s) (cols out) -> s_dtype s = object -> In v (values s) ->
  v = CNA \/ exists x, v = CStr x /\ x <> "" /\ Py.strip x = x.
Proof.
  intros H Hin Hobj Hv. apply clean_data_ok_inv in H as (_ & _ & ->).
  pose proof (cleaned_drop_duplicates _
                (cleaned_clean_cells (normalize_columns df))) as C.
  unfold cleaned in C. rewrite Forall_forall in C.
  specialize (C (l, s) Hin). cbn [snd] in C. rewrite Hobj in C.
  specialize (C eq_refl). rewrite Forall_forall in C.
  now apply clean_cell_fixed, C.
Qed.

Lemma X3_witness :
  CStr "d1" = CNA \/ exists x, CStr "d1" = CStr x /\ x <> "" /\ Py.strip x = x.
Proof.
  apply (X3_cleaned_text_cells scenario_a _ (LStr "date")
           (text [CStr "d1"; CStr "d2"]) (CStr "d1") eq_refl).
  - left. reflexivity.
  - reflexivity.
  - left. reflexivity.
Defined.

Lemma clean_col_eta c :
  clean_col c
  = (fst c, mkSeries (s_dtype (snd c))
              (map (clean_col_cell c) (values (snd c)))).
Proof.
  unfold clean_col, clean_col_cell. destruct c as [l s]. cbn [fst snd].
  destruct (is_object (s_dtype s)).
  - unfold clean_series, replace_empty_NA, str_strip. cbn [s_dtype values].
    now rewrite map_map.
  - now rewrite map_id, Series_eta.
Qed.

Lemma cols_clean_cells_normalize df :
  cols (clean_cells (normalize_columns df))
  = map (fun c => (normalize_label (fst c),
                   mkSeries (s_dtype (snd c))
                     (map (clean_col_cell c) (values (snd c)))))
        (cols df).
Proof.
  unfold clean_cells. cbn [cols]. rewrite normalize_columns_cols, map_map.
  apply map_ext. intros c. now rewrite clean_col_eta.
Qed.


Lemma scenario_a_well_formed : well_formed scenario_a.
Proof. repeat constructor. Qed.


Lemma drop_duplicates_first df :
  hd_error (index (drop_duplicates df)) = hd_error (index df).
Proof.
  unfold drop_duplicates. destruct (empty df) eqn:E; [reflexivity|].
  unfold duplicated. rewrite E. unfold boolean_mask, rows. cbn [index].
  unfold empty in E. apply orb_false_elim in E as [_ E].
  destruct (index df) as [|i idx]; [discriminate|]. reflexivity.
Qed.

(** X5. The Cleaner keeps the first row: the table it returns starts with
    the index label the input starts with, and is not empty unless the input
    is. *)
Theorem X5_first_row_kept df out :
  clean_data df = Ok out ->
  hd_error (index out) = hd_error (index df)
  /\ (nrows out = 0 -> nrows df = 0).
Proof.
  intros H. apply clean_data_ok_inv in H as (_ & _ & ->).
  pose proof (drop_duplicates_first (clean_cells (normalize_columns df))) as F.
  cbn [clean_cells index normalize_columns set_columns] in F.
  split; [exact F|]. unfold nrows.
  destruct (index (drop_duplicates (clean_cells (normalize_columns df))));
    [|discriminate].
  destruct (index df); [reflexivity | discriminate].
Qed.

Lemma X5_witness :
  hd_error [0%Z; 1%Z] = hd_error (index scenario_a).
Proof.
  apply (X5_first_row_kept scenario_a
           (mkDataFrame [0%Z; 1%Z]
              [ (LStr "date", text [CStr "d1"; CStr "d2"]);
                (LStr "amount", mkSeries int64 [CNum 10; CNum 20]) ])).
  reflexivity.
Defined.

Lemma filter_mask_In (A : Type) (x : A) mask : forall xs,
  In x (filter_mask mask xs) -> In x xs.
Proof.
  induction mask as [|b m IH]; intros [|y ys]; simpl; try easy.
  destruct b; [intros [-> | H]; [now left | right; now apply IH] |].
  intros H. right. now apply IH.
Qed.

Lemma kept_rows_cover rs : forall seen r,
  In r rs ->
  In r seen \/ In r (filter_mask (map negb (duplicated_from seen rs)) rs).
Proof.
  induction rs as [|r0 rs IH]; intros seen r Hin; [easy|].
  cbn [duplicated_from].
  destruct (existsb (row_eqb r0) seen) eqn:E; cbn [map negb filter_mask].
  - destruct Hin as [<- | Hin]; [left; now apply existsb_row_In|].
    now apply IH.
  - destruct Hin as [<- | Hin]; [right; now left|].
    destruct (IH (r0 :: seen) r Hin) as [[<- | H] | H].
    + right. now left.
    + now left.
    + right. now right.
Qed.

Lemma drop_duplicates_rows df r :
  In r (rows (drop_duplicates df)) <-> In r (rows df).
Proof.
  unfold drop_duplicates. destruct (empty df) eqn:E; [reflexivity|].
  rewrite rows_boolean_mask
    by (rewrite length_map; now apply duplicated_length).
  unfold duplicated. rewrite E. split.
  - apply filter_mask_In.
  - intros H. destruct (kept_rows_cover (rows df) [] r H) as [[] | K]. exact K.
Qed.

(** X6. Dropping the duplicates loses no row: the rows of the table the
    Cleaner returns are, as a set, the rows of the table with its cells
    cleaned. *)
Theorem X6_no_row_lost df out :
  clean_data df = Ok out ->
  exists stripped,
    strip_strings (normalize_columns df) = Ok stripped
    /\ forall r, In r (rows out) <-> In r (rows stripped).
Proof.
  intros H. apply clean_data_ok_inv in H as (_ & S & ->).
  exists (clean_cells (normalize_columns df)). split; [exact S|].
  intros r. apply drop_duplicates_rows.
Qed.

Lemma X6_witness :
  exists stripped,
    strip_strings (normalize_columns trailing_blank) = Ok stripped
    /\ forall r,
         In r (rows (mkDataFrame [0%Z] [(LStr "x", text [CStr "a"])]))
         <-> In r (rows stripped).
Proof.
  apply (X6_no_row_lost trailing_blank). reflexivity.
Defined.

Lemma isna_clean_cell c :
  isna (clean_cell c) = isna c || lost_in_cleaning c.
Proof.
  destruct c as [x|z|t|]; try reflexivity.
  unfold clean_cell. cbn [str_strip_cell lost_in_cleaning isna orb].
  destruct (Py.strip x); reflexivity.
Qed.

Lemma isna_sum_clean_series s :
  isna_sum (clean_series s)
  = isna_sum s + length (filter lost_in_cleaning (values s)).
Proof.
  unfold isna_sum. rewrite clean_series_values.
  induction (values s) as [|c vs IH]; [reflexivity|].
  cbn [map filter]. rewrite isna_clean_cell.
  destruct c as [x|z|t|]; cbn [isna lost_in_cleaning orb];
    try (destruct (String.eqb (Py.strip x) "")); cbn [length]; lia.
Qed.

(** X7. The loop of the Cleaner can only add missing cells: a column of
    dtype object gains one for every blank string and for every value that
    is not a string, and the other columns keep their count. *)
Theorem X7_missing_cells_added df out :
  strip_strings df = Ok out ->
  Forall2 (fun c c' =>
             fst c' = fst c
             /\ isna_sum (snd c')
                = isna_sum (snd c)
                  + (if is_object (s_dtype (snd c))
                     then length (filter lost_in_cleaning (values (snd c)))
                     else 0))
          (cols df) (cols out).
Proof.
  rewrite strip_strings_spec. destruct (cleanable df); [|discriminate].
  intros H. injection H as <-. unfold clean_cells. cbn [cols].
  induction (cols df) as [|[l s] cs IH]; [constructor|].
  cbn [map]. constructor; [|exact IH].
  unfold clean_col. cbn [fst snd].
  destruct (is_object (s_dtype s)); cbn [fst snd].
  - split; [reflexivity | apply isna_sum_clean_series].
  - split; [reflexivity | lia].
Qed.

Lemma X7_witness :
  Forall2 (fun c c' =>
             fst c' = fst c
             /\ isna_sum (snd c')
                = isna_sum (snd c)
                  + (if is_object (s_dtype (snd c))
                     then length (filter lost_in_cleaning (values (snd c)))
                     else 0))
          (cols mixed_column)
          [(LStr "x", text [CStr "abc"; CNA])].
Proof.
  apply (X7_missing_cells_added mixed_column
           (mkDataFrame (range_index 2) [(LStr "x", text [CStr "abc"; CNA])])).
  reflexivity.
Defined.

(** *** What the Validator reports *)

Lemma to_uint_not_Nil n : Nat.to_uint n <> Decimal.Nil.
Proof.
  intros H. pose proof (DecimalNat.Unsigned.of_to n) as E.
  rewrite H in E. cbn in E. subst n. discriminate.
Qed.

(** A printed count starts with a digit. *)
Lemma str_of_nat_first n :
  exists c rest,
    Py.str_of_nat n = String c rest
    /\ (48 <=? nat_of_ascii c) && (nat_of_ascii c <=? 57) = true.
Proof.
  unfold Py.str_of_nat. pose proof (to_uint_not_Nil n) as H.
  destruct (Nat.to_uint n); [contradiction| ..];
    cbn [NilEmpty.string_of_uint]; eexists; eexists; split; reflexivity.
Qed.

Lemma dup_issue_first n :
  exists c rest,
    dup_issue n = String c rest
    /\ (48 <=? nat_of_ascii c) && (nat_of_ascii c <=? 57) = true.
Proof.
  unfold dup_issue. destruct (str_of_nat_first n) as (c & rest & -> & H).
  cbn [String.append]. eexists; eexists; split; [reflexivity | exact H].
Qed.

Lemma issue_form_not_placeholder i : issue_form i -> i <> "No issues found".
Proof.
  intros [n|name|name n] E.
  - destruct (dup_issue_first n) as (c & rest & Hc & D). rewrite Hc in E.
    injection E as -> _. discriminate.
  - discriminate.
  - discriminate.
Qed.

Lemma validate_column_forms df issues col out :
  validate_column df issues col = Ok out ->
  exists added,
    out = issues ++ added /\ length added <= 1 /\ Forall issue_form added.
Proof.
  unfold validate_column.
  destruct (negb (contains (columns df) (LStr col))).
  - intros H. injection H as <-. eexists. split; [reflexivity|].
    split; [simpl; lia|]. repeat constructor.
  - destruct (getitem df (LStr col)) as [|[l s] [|c g]]; try discriminate.
    destruct (0 <? isna_sum s); intros H; injection H as <-.
    + eexists. split; [reflexivity|]. split; [simpl; lia|]. repeat constructor.
    + exists []. split; [now rewrite app_nil_r|]. split; [simpl; lia | constructor].
Qed.

Lemma for_each_validate_forms df required_columns : forall issues out,
  for_each (validate_column df) required_columns issues = Ok out ->
  exists added,
    out = issues ++ added
    /\ length added <= length required_columns
    /\ Forall issue_form added.
Proof.
  induction required_columns as [|col rest IH]; intros issues out H.
  - cbn in H. injection H as <-. exists []. split; [now rewrite app_nil_r|].
    split; [simpl; lia | constructor].
  - apply for_each_ok_inv in H as (st & H1 & H2).
    apply validate_column_forms in H1 as (a1 & -> & L1 & F1).
    apply IH in H2 as (a2 & -> & L2 & F2).
    exists (a1 ++ a2). split; [now rewrite app_assoc|].
    split; [rewrite length_app; simpl; lia | now apply Forall_app].
Qed.

Lemma validate_data_forms df required_columns issues :
  validate_data df required_columns = Ok issues ->
  length issues <= 1 + length required_columns /\ Forall issue_form issues.
Proof.
  unfold validate_data. intros H.
  apply for_each_validate_forms in H as (added & -> & L & F).
  destruct (0 <? sum_bool (duplicated df)).
  - split; [rewrite length_app; simpl; lia|].
    apply Forall_app. split; [repeat constructor | exact F].
  - split; [simpl; lia | exact F].
Qed.

(** X8. The Validator returns at most one issue for the duplicate rows and
    one for each required name, and each issue has one of the three forms
    of the code. *)
Theorem X8_issue_count_and_forms df required_columns issues :
  validate_data df required_columns = Ok issues ->
  length issues <= 1 + length required_columns /\ Forall issue_form issues.
Proof.
  unfold validate_data. intros H.
  apply for_each_validate_forms in H as (added & -> & L & F).
  destruct (0 <? sum_bool (duplicated df)).
  - split; [rewrite length_app; simpl; lia|].
    apply Forall_app. split; [repeat constructor | exact F].
  - split; [simpl; lia | exact F].
Qed.

Lemma X8_witness :
  length ["1 duplicate rows found"; "Missing required column: category"]
  <= 1 + length ["category"; "date"]
  /\ Forall issue_form
       ["1 duplicate rows found"; "Missing required column: category"].
Proof.
  apply (X8_issue_count_and_forms (normalize_columns scenario_a)
           ["category"; "date"]).
  reflexivity.
Defined.

(** X9. No issue of the Validator is the text "No issues found": the report
    holds that row exactly when the Validator found nothing. *)
Theorem X9_placeholder_means_no_issue df required_columns issues :
  validate_data df required_columns = Ok issues ->
  ~ In "No issues found" issues
  /\ (map (fun c => values (snd c)) (cols (report issues))
      = [[CStr "No issues found"]]
      <-> issues = []).
Proof.
  intros H. apply validate_data_forms in H as [_ F].
  assert (N : ~ In "No issues found" issues).
  { intros Hin. rewrite Forall_forall in F.
    exact (issue_form_not_placeholder _ (F _ Hin) eq_refl). }
  split; [exact N|]. split.
  - destruct issues as [|i issues]; [reflexivity|]. cbn. intros E.
    injection E as E1 E2. exfalso. apply N. left. exact E1.
  - intros ->. reflexivity.
Qed.

Lemma X9_witness :
  ~ In "No issues found" ["1 duplicate rows found"].
Proof.
  apply (X9_placeholder_means_no_issue (normalize_columns scenario_a)
           ["date"; "amount"]).
  reflexivity.
Defined.





(** *** The preview *)

Lemma shown_cells (g : cell -> string) (vs : list cell) :
  Forall2 (fun v v' =>
             is_str v' = true
             /\ (is_str v = true -> v' = v)
             /\ (v = CNA -> v' = CStr "MISSING"))
          vs
          (map (fun c => match c with
                         | CStr _ => c
                         | _ => CStr (g c)
                         end)
               (map (fun c => if isna c then CStr "MISSING" else c) vs)).
Proof.
  induction vs as [|v vs IH]; [constructor|].
  cbn [map]. constructor; [|exact IH].
  destruct v; cbn [isna is_str]; repeat split; try discriminate; reflexivity.
Qed.

(** X11. The preview shows every column under its label and every row under
    its index label, with a string in every cell: a string as it is, a
    missing cell as "MISSING"; its columns are of dtype object. *)
Theorem X11_display_safe_cells fmt df :
  index (display_safe fmt df) = index df
  /\ Forall2 (fun c c' =>
                fst c' = fst c
                /\ s_dtype (snd c') = object
                /\ Forall2 (fun v v' =>
                              is_str v' = true
                              /\ (is_str v = true -> v' = v)
                              /\ (v = CNA -> v' = CStr "MISSING"))
                           (values (snd c)) (values (snd c')))
             (cols df) (cols (display_safe fmt df)).
Proof.
  split; [reflexivity|]. unfold display_safe. cbn [cols].
  induction (cols df) as [|[l s] cs IH]; [constructor|].
  cbn [map]. constructor; [|exact IH]. cbn [fst snd].
  split; [reflexivity|]. split; [reflexivity|].
  exact (shown_cells (fmt (fillna "MISSING" s)) (values s)).
Qed.

Lemma astype_text (g : cell -> string) (vs : list cell) :
  forallb is_str vs = true ->
  map (fun c => match c with
                | CStr _ => c
                | _ => CStr (g c)
                end) vs = vs.
Proof.
  induction vs as [|v vs IH]; [reflexivity|].
  cbn [forallb map]. intros H. apply andb_prop in H as [Hv Hvs].
  rewrite (IH Hvs). destruct v; try discriminate. reflexivity.
Qed.

Lemma series_astype_str_text fmt s :
  forallb is_str (values s) = true ->
  values (series_astype_str fmt s) = values s.
Proof. intros H. exact (astype_text (fmt s) (values s) H). Qed.

Lemma text_has_no_missing (v : string) (vs : list cell) :
  forallb is_str vs = true ->
  existsb isna vs = false
  /\ map (fun c => if isna c then CStr v else c) vs = vs.
Proof.
  induction vs as [|c vs IH]; [now split|].
  cbn [forallb existsb map]. intros H. apply andb_prop in H as [Hc Hvs].
  destruct (IH Hvs) as [-> ->]. destruct c; try discriminate. now split.
Qed.

Lemma fillna_text v s :
  forallb is_str (values s) = true -> fillna v s = s.
Proof.
  intros H. unfold fillna.
  destruct (text_has_no_missing v (values s) H) as [-> ->]. apply Series_eta.
Qed.

Lemma display_safe_text fmt s :
  forallb is_str (values (series_astype_str fmt (fillna "MISSING" s))) = true.
Proof.
  apply forallb_forall. intros v' Hin.
  pose proof (shown_cells (fmt (fillna "MISSING" s)) (values s)) as F.
  change (In v' (map (fun c => match c with
                               | CStr _ => c
                               | _ => CStr (fmt (fillna "MISSING" s) c)
                               end)
                     (map (fun c => if isna c then CStr "MISSING" else c)
                          (values s)))) in Hin.
  revert Hin. induction F as [|v w vs ws [Hw _] _ IH]; [easy|].
  intros [<- | Hin]; [exact Hw | now apply IH].
Qed.

(** X12. The preview of a preview is the preview: [display_safe] changes
    nothing in a table it has returned, however values are printed. *)
Theorem X12_display_safe_idempotent fmt fmt' df :
  display_safe fmt' (display_safe fmt df) = display_safe fmt df.
Proof.
  apply DataFrame_eq; [reflexivity|].
  unfold display_safe. cbn [cols]. rewrite map_map. apply map_ext.
  intros [l s]. cbn [fst snd]. f_equal.
  pose proof (display_safe_text fmt s) as T.
  set (shown_s := series_astype_str fmt (fillna "MISSING" s)) in *.
  rewrite (fillna_text "MISSING" shown_s T).
  rewrite <- (Series_eta shown_s) at 2.
  unfold series_astype_str at 1.
  fold (series_astype_str fmt' shown_s).
  rewrite <- (series_astype_str_text fmt' shown_s T). reflexivity.
Qed.

(** *** The script and its session *)

Lemma session_after_some fmt ws : forall b,
  session_after fmt (Some b) ws = Some (b || existsb confirms ws).
Proof.
  induction ws as [|w ws IH]; intros b; cbn [session_after existsb].
  - now rewrite orb_false_r.
  - unfold script. cbn [session]. rewrite IH. unfold confirms. f_equal.
    destruct (uploaded_file w), (button w), b; reflexivity.
Qed.

Lemma session_after_runs fmt ss w ws :
  session_after fmt ss (w :: ws)
  = Some ((match ss with
           | Some b => b
           | None => false
           end) || existsb confirms (w :: ws)).
Proof.
  destruct ss as [b|]; [apply session_after_some|].
  cbn [session_after]. unfold script. cbn [session].
  rewrite session_after_some. cbn [existsb orb]. unfold confirms. f_equal.
  destruct (uploaded_file w), (button w); reflexivity.
Qed.

Lemma session_after_confirmed fmt ss ws :
  existsb confirms ws = true -> session_after fmt ss ws = Some true.
Proof.
  destruct ws as [|w ws]; [discriminate|]. intros H.
  rewrite session_after_runs, H. now rewrite orb_true_r.
Qed.

(** X13. After any runs of the script the flag "proceed" is set, and it is
    true exactly when it was true before or one of the runs was a click on
    the button with a file uploaded: no run clears it. *)
Theorem X13_proceed_is_never_cleared fmt ss w ws :
  session_after fmt ss (w :: ws)
  = Some ((match ss with
           | Some b => b
           | None => false
           end) || existsb confirms (w :: ws)).
Proof.
  destruct ss as [b|]; [apply session_after_some|].
  cbn [session_after]. unfold script. cbn [session].
  rewrite session_after_some. cbn [existsb orb]. unfold confirms. f_equal.
  destruct (uploaded_file w), (button w); reflexivity.
Qed.

(** X14. Once the user has confirmed, a run with no file uploaded (the file
    was removed) reaches the use of [raw_df] with the name unbound and fails
    with NameError. *)
Theorem X14_file_removed_after_confirming fmt ss ws w :
  existsb confirms ws = true -> uploaded_file w = None ->
  shown (script fmt (session_after fmt ss ws) w) = Failed NameError.
Proof.
  intros C U. rewrite (session_after_confirmed fmt ss ws C).
  unfold script. cbn [shown]. now rewrite U.
Qed.

Lemma X14_witness :
  shown (script sample_fmt (session_after sample_fmt None [confirming_run])
           run_without_file)
  = Failed NameError.
Proof.
  apply (X14_file_removed_after_confirming sample_fmt None [confirming_run]
           run_without_file); reflexivity.
Defined.

(** X15. Once the user has confirmed, every run with a file uploaded goes
    through validation and cleaning of that file, clicked or not: a new
    upload is processed without a new confirmation. *)
Theorem X15_new_upload_needs_no_click fmt ss ws w raw_df :
  existsb confirms ws = true -> uploaded_file w = Some raw_df ->
  shown (script fmt (session_after fmt ss ws) w)
  = pipeline fmt raw_df (selection w)
  /\ shown (script fmt (session_after fmt ss ws) w) <> NotRun.
Proof.
  intros C U. rewrite (session_after_confirmed fmt ss ws C).
  unfold script. cbn [shown]. rewrite U.
  replace (if button w then true else true) with true
    by (destruct (button w); reflexivity).
  split; [reflexivity|]. unfold pipeline.
  destruct (validate_data _ _); [|discriminate].
  destruct (clean_data _); discriminate.
Qed.

Lemma X15_witness :
  shown (script sample_fmt (session_after sample_fmt None [confirming_run])
           (mkWidgets (Some trailing_blank) false None))
  = pipeline sample_fmt trailing_blank None.
Proof.
  apply (X15_new_upload_needs_no_click sample_fmt None [confirming_run]
           (mkWidgets (Some trailing_blank) false None) trailing_blank);
    reflexivity.
Defined.

Lemma contains_In ls l : contains ls l = true <-> In l ls.
Proof.
  unfold contains. rewrite existsb_exists. split.
  - intros (x & Hin & E). apply label_eqb_eq in E. now subst.
  - intros H. exists l. split; [exact H | apply label_eqb_refl].
Qed.

Lemma validate_column_present df issues col out :
  contains (columns df) (LStr col) = true ->
  validate_column df issues col = Ok out ->
  exists added,
    out = issues ++ added
    /\ Forall (fun i => exists n, i = missing_values_issue col n) added.
Proof.
  unfold validate_column. intros ->. cbn [negb].
  destruct (getitem df (LStr col)) as [|[l s] [|c g]]; try discriminate.
  destruct (0 <? isna_sum s); intros H; injection H as <-.
  - eexists. split; [reflexivity|]. constructor; [|constructor]. now eexists.
  - exists []. split; [now rewrite app_nil_r | constructor].
Qed.

Lemma validate_present df required_columns : forall issues out,
  (forall name, In name required_columns -> In (LStr name) (columns df)) ->
  for_each (validate_column df) required_columns issues = Ok out ->
  exists added,
    out = issues ++ added
    /\ Forall (fun i => exists name n, i = missing_values_issue name n) added.
Proof.
  induction required_columns as [|col rest IH]; intros issues out P H.
  - cbn in H. injection H as <-. exists []. split; [now rewrite app_nil_r|].
    constructor.
  - apply for_each_ok_inv in H as (st & H1 & H2).
    apply validate_column_present in H1 as (a1 & -> & F1);
      [|apply contains_In, P; now left].
    apply IH in H2 as (a2 & -> & F2); [|intros n Hn; apply P; now right].
    exists (a1 ++ a2). split; [now rewrite app_assoc|].
    apply Forall_app. split; [|exact F2].
    revert F1. apply Forall_impl. intros i [n ->]. now exists col, n.
Qed.

Lemma no_missing_column_issue df required_columns issues :
  (forall name, In name required_columns -> In (LStr name) (columns df)) ->
  validate_data df required_columns = Ok issues ->
  forall name, ~ In (missing_column_issue name) issues.
Proof.
  intros P H name Hin. unfold validate_data in H.
  apply validate_present in H as (added & -> & F); [|exact P].
  apply in_app_or in Hin as [Hin | Hin].
  - destruct (0 <? sum_bool (duplicated df)); [|easy].
    destruct Hin as [E | []].
    destruct (dup_issue_first (sum_bool (duplicated df))) as (c & rest & Hc & D).
    rewrite Hc in E. injection E as -> _. discriminate.
  - rewrite Forall_forall in F. destruct (F _ Hin) as (nm & n & E).
    discriminate.
Qed.

Lemma default_required_present df name :
  In name (default_required df) -> In (LStr name) (columns df).
Proof.
  unfold default_required. intros H. apply filter_In in H as [_ H].
  now apply contains_In.
Qed.

(** X16. In a run of the script that completes, with the default selection
    or with names picked among the columns of the normalized table (the
    options of the multiselect), no issue is "Missing required column". *)
Theorem X16_no_missing_column_in_the_app fmt raw_df picked issues p c r :
  pipeline fmt raw_df picked = Completed issues p c r ->
  (forall names, picked = Some names ->
     forall name, In name names ->
       In (LStr name) (columns (normalize_columns raw_df))) ->
  forall name, ~ In (missing_column_issue name) issues.
Proof.
  unfold pipeline. intros H P.
  destruct (validate_data _ _) as [found|e] eqn:V; [|discriminate].
  destruct (clean_data _); [|discriminate].
  injection H as <- _ _ _.
  refine (no_missing_column_issue _ _ _ _ V).
  destruct picked as [names|].
  - exact (P names eq_refl).
  - apply default_required_present.
Qed.

Lemma X16_witness :
  ~ In (missing_column_issue "date") ["1 duplicate rows found"].
Proof.
  refine (X16_no_missing_column_in_the_app sample_fmt scenario_a None
            _ _ _ _ eq_refl _ "date").
  intros names E. discriminate E.
Defined.

(** *** Rows reported and rows removed *)





(** *** Well-formed tables *)

Lemma well_formed_mask df keep :
  well_formed df -> length keep = nrows df ->
  well_formed (boolean_mask df keep).
Proof.
  unfold well_formed, boolean_mask, nrows. cbn [index cols]. intros W L.
  apply Forall_map. revert W. apply Forall_impl. intros c Hc. cbn [snd values].
  rewrite !filter_mask_length; [reflexivity | exact L | now rewrite Hc].
Qed.

(** X18. Every operation keeps a table well formed: what the Normalizer,
    the Cleaner, [head] and [display_safe] return has columns as long as its
    index when their argument has. *)
Theorem X18_well_formed_kept fmt df :
  well_formed df ->
  well_formed (normalize_columns df)
  /\ (forall out, clean_data df = Ok out -> well_formed out)
  /\ well_formed (head df)
  /\ well_formed (display_safe fmt df).
Proof.
  intros W. unfold well_formed in W |- *. repeat split.
  - rewrite normalize_columns_cols. apply Forall_map. exact W.
  - intros out H. apply clean_data_ok_inv in H as (_ & _ & ->).
    assert (Ws : well_formed (clean_cells (normalize_columns df))).
    { unfold well_formed. rewrite cols_clean_cells_normalize.
      apply Forall_map. revert W. apply Forall_impl. intros c Hc.
      cbn [snd values]. now rewrite length_map. }
    unfold drop_duplicates.
    destruct (empty (clean_cells (normalize_columns df))) eqn:E; [exact Ws|].
    apply well_formed_mask; [exact Ws|].
    rewrite length_map. now apply duplicated_length.
  - unfold head, nrows. cbn [index cols]. apply Forall_map.
    revert W. apply Forall_impl. intros c Hc. cbn [snd values].
    rewrite !length_firstn, Hc. reflexivity.
  - unfold display_safe, nrows. cbn [index cols]. apply Forall_map.
    revert W. apply Forall_impl. intros c Hc. cbn [snd].
    unfold series_astype_str, fillna. cbn [values].
    now rewrite !length_map.
Qed.

Lemma X18_witness :
  well_formed (normalize_columns scenario_a)
  /\ (forall out, clean_data scenario_a = Ok out -> well_formed out)
  /\ well_formed (head scenario_a)
  /\ well_formed (display_safe sample_fmt scenario_a).
Proof.
  apply (X18_well_formed_kept sample_fmt scenario_a).
  exact scenario_a_well_formed.
Defined.
